(** * vtkLocationSelector: selection of points and cells by location

    A shallow embedding of [Filters/Extraction/vtkLocationSelector.cxx]:
    the two matchers ([vtkInternalsForPoints], [vtkInternalsForCells]),
    and the selector that owns one of them ([Initialize], [Finalize],
    [ComputeSelectedElementsForBlock]).

    - [vtkIdType] values are integers [Z]; every id the code handles is
      bounded by a list length, so no wrap-around occurs.
    - [double] values are kept behind the interface [Scalar]; the instance
      [double_Scalar] is IEEE binary64 (Rocq's primitive floats), and
      [double_ScalarOrder] gives the laws its comparison keeps.
    - The insidedness array is the list of its [signed char] entries; a
      write outside the buffer, which is undefined behaviour in C++, is the
      outcome [OutOfBounds]. *)

From Stdlib Require Import ZArith Bool Lia PrimFloat SpecFloat FloatAxioms.
From stdpp Require Import base list.

Local Open Scope Z_scope.

(** ** Scalars *)

(** The operations the code applies to [double]s. *)
Class Scalar (T : Type) : Type := {
  zero : T;
  add : T -> T -> T;
  sub : T -> T -> T;
  mul : T -> T -> T;
  gtb : T -> T -> bool
}.

(** IEEE 754 binary64, the [double] of the source. *)
#[export] Instance double_Scalar : Scalar float := {
  zero := PrimFloat.zero;
  add := PrimFloat.add;
  sub := PrimFloat.sub;
  mul := PrimFloat.mul;
  gtb := fun a b => PrimFloat.ltb b a
}.

(** ** Outcomes *)

(** What a call can end in: a value, a write past the end of a buffer
    (undefined behaviour in the source), or a failed [assert] in a build
    that keeps assertions. *)
Inductive outcome (A : Type) : Type :=
| Ret (a : A)
| OutOfBounds
| AssertFailed.

Arguments Ret {A} a.
Arguments OutOfBounds {A}.
Arguments AssertFailed {A}.

#[export] Instance outcome_ret : MRet outcome := fun A a => Ret a.

#[export] Instance outcome_bind : MBind outcome := fun A B k c =>
  match c with
  | Ret a => k a
  | OutOfBounds => OutOfBounds
  | AssertFailed => AssertFailed
  end.

(** [for (vtkIdType i = 0; i < n; ++i) body(i)]: the state after the first
    [n] iterations. *)
Fixpoint for_loop {A : Type} (body : Z -> A -> outcome A) (n : nat) (a : A)
  : outcome A :=
  match n with
  | O => Ret a
  | S k => a' ← for_loop body k a; body (Z.of_nat k) a'
  end.

(** ** vtkSignedCharArray, one component per tuple *)

Abbreviation vtkSignedCharArray := (list Z).

Definition GetNumberOfTuples (a : vtkSignedCharArray) : Z := Z.of_nat (length a).

(** [std::fill_n(a->GetPointer(0), n, v)] *)
Definition fill_n (a : vtkSignedCharArray) (n : Z) (v : Z)
  : outcome vtkSignedCharArray :=
  if n <=? GetNumberOfTuples a
  then Ret (replicate (Z.to_nat n) v ++ drop (Z.to_nat n) a)
  else OutOfBounds.

(** [a->SetValue(i, v)]: no bounds check in the source. *)
Definition SetValue (a : vtkSignedCharArray) (i : Z) (v : Z)
  : outcome vtkSignedCharArray :=
  if (0 <=? i) && (i <? GetNumberOfTuples a)
  then Ret (<[Z.to_nat i := v]> a)
  else OutOfBounds.

(** [a->SetTypedComponent(tupleIdx, comp, v)] *)
Definition SetTypedComponent (a : vtkSignedCharArray) (tupleIdx comp : Z) (v : Z)
  : outcome vtkSignedCharArray :=
  SetValue a (tupleIdx * 1 + comp) v.

Section Selector.

Context {scalar : Type} {SC : Scalar scalar}.

(** ** Data *)

(** [double[3]] *)
Record Vec3 : Type := mkVec3 { c0 : scalar; c1 : scalar; c2 : scalar }.

(** The selection list, a [vtkDataArray]. *)
Record vtkDataArray : Type := {
  GetNumberOfComponents : Z;
  Tuples : list (list scalar)
}.

Definition NumberOfTuples (a : vtkDataArray) : Z := Z.of_nat (length (Tuples a)).

(** [a->GetTuple(i, location)] into a [double[3]]; the matchers only ever
    hold arrays of three components (see [Initialize]). *)
Definition GetTuple (a : vtkDataArray) (i : Z) : Vec3 :=
  let t := default [] (Tuples a !! Z.to_nat i) in
  mkVec3 (default zero (t !! 0%nat)) (default zero (t !! 1%nat))
         (default zero (t !! 2%nat)).

(** The virtual methods of [vtkDataSet] the matchers call. *)
Record vtkDataSet : Type := {
  GetNumberOfPoints : Z;
  IsA_vtkPointSet : bool;
  FindPoint : Vec3 -> Z;
  GetPoint : Z -> Vec3
}.

Inductive vtkDataObject : Type :=
| DataSet (ds : vtkDataSet)
| OtherDataObject.

(** [vtkDataSet::SafeDownCast] *)
Definition DataSet_SafeDownCast (o : vtkDataObject) : option vtkDataSet :=
  match o with
  | DataSet ds => Some ds
  | OtherDataObject => None
  end.

(** Modelled from the spec: [vtkMath::Distance2BetweenPoints] is declared in
    [vtkMath.h], which is not part of the file; it is the squared distance
    between two points. *)
Definition Distance2BetweenPoints (p q : Vec3) : scalar :=
  add (add (mul (sub (c0 p) (c0 q)) (sub (c0 p) (c0 q)))
           (mul (sub (c1 p) (c1 q)) (sub (c1 p) (c1 q))))
      (mul (sub (c2 p) (c2 q)) (sub (c2 p) (c2 q))).

(** ** Collaborators *)

(** The spatial indices the matchers build over a dataset, which live in
    other files: [vtkStaticPointLocator::FindClosestPointWithinRadius(radius,
    x, dist2)] and [vtkStaticCellLocator::FindCell(x)]. *)
Class PointLocator : Type := {
  FindClosestPointWithinRadius : vtkDataSet -> scalar -> Vec3 -> Z
}.

Class CellLocator : Type := {
  FindCell : vtkDataSet -> Vec3 -> Z
}.

Context {PL : PointLocator} {CL : CellLocator}.

(** ** vtkInternalsForPoints *)

(** The point id one query location resolves to (lines 82-99). *)
Definition PointCandidate (radius : scalar) (dataset : vtkDataSet)
  (location : Vec3) : Z :=
  if IsA_vtkPointSet dataset
  then FindClosestPointWithinRadius dataset radius location
  else
    let ptId := FindPoint dataset location in
    if 0 <=? ptId
    then
      let x := GetPoint dataset ptId in
      let distance := Distance2BetweenPoints x location in
      if gtb distance (mul radius radius) then -1 else ptId
    else ptId.

(** One iteration of the loop over the locations (lines 79-104). *)
Definition PointsBody (SelectionList : vtkDataArray) (radius : scalar)
  (dataset : vtkDataSet) (locationId : Z) (insidednessArray : vtkSignedCharArray)
  : outcome vtkSignedCharArray :=
  let location := GetTuple SelectionList locationId in
  let ptId := PointCandidate radius dataset location in
  if 0 <=? ptId
  then SetTypedComponent insidednessArray ptId 0 1
  else Ret insidednessArray.

(** The first [n] iterations of the loop. *)
Definition PointsLoop (SelectionList : vtkDataArray) (radius : scalar)
  (dataset : vtkDataSet) (n : nat) (insidednessArray : vtkSignedCharArray)
  : outcome vtkSignedCharArray :=
  for_loop (PointsBody SelectionList radius dataset) n insidednessArray.

(** [vtkInternalsForPoints::Execute]. The locator, built when the dataset is
    a [vtkPointSet], is [PL]; [Modified()] only stamps the array's
    modification time. *)
Definition ExecutePoints (SelectionList : vtkDataArray) (SearchRadius : scalar)
  (dataset : vtkDataSet) (insidednessArray : vtkSignedCharArray)
  : outcome (bool * vtkSignedCharArray) :=
  let numPoints := GetNumberOfPoints dataset in
  if numPoints <=? 0 then Ret (false, insidednessArray)
  else
    filled ← fill_n insidednessArray numPoints 0;
    let radius := SearchRadius in
    let numLocations := NumberOfTuples SelectionList in
    marked ← PointsLoop SelectionList radius dataset (Z.to_nat numLocations) filled;
    Ret (true, marked).

(** The array after the fill and the first [k] iterations of a call that
    got past the test on [numPoints]. *)
Definition PointsAfter (SelectionList : vtkDataArray) (SearchRadius : scalar)
  (dataset : vtkDataSet) (insidednessArray : vtkSignedCharArray) (k : nat)
  : outcome vtkSignedCharArray :=
  filled ← fill_n insidednessArray (GetNumberOfPoints dataset) 0;
  PointsLoop SelectionList SearchRadius dataset k filled.

(** ** vtkInternalsForCells *)

(** One iteration of the loop over the locations (lines 131-137). *)
Definition CellsBody (SelectionList : vtkDataArray) (dataset : vtkDataSet)
  (numCells : Z) (cc : Z) (insidednessArray : vtkSignedCharArray)
  : outcome vtkSignedCharArray :=
  let coords := GetTuple SelectionList cc in
  let cid := FindCell dataset coords in
  if (0 <=? cid) && (cid <? numCells)
  then SetValue insidednessArray cid 1
  else Ret insidednessArray.

(** The first [n] iterations of the loop. *)
Definition CellsLoop (SelectionList : vtkDataArray) (dataset : vtkDataSet)
  (numCells : Z) (n : nat) (insidednessArray : vtkSignedCharArray)
  : outcome vtkSignedCharArray :=
  for_loop (CellsBody SelectionList dataset numCells) n insidednessArray.

(** [vtkInternalsForCells::Execute]. The cell locator built over the dataset
    is [CL]; [numCells] is the array's number of tuples. *)
Definition ExecuteCells (SelectionList : vtkDataArray) (SearchRadius : scalar)
  (dataset : vtkDataSet) (insidednessArray : vtkSignedCharArray)
  : outcome (bool * vtkSignedCharArray) :=
  let numLocations := NumberOfTuples SelectionList in
  let numCells := GetNumberOfTuples insidednessArray in
  filled ← fill_n insidednessArray numCells 0;
  marked ← CellsLoop SelectionList dataset numCells (Z.to_nat numLocations) filled;
  Ret (true, marked).

(** The array after the fill and the first [k] iterations. *)
Definition CellsAfter (SelectionList : vtkDataArray) (dataset : vtkDataSet)
  (insidednessArray : vtkSignedCharArray) (k : nat)
  : outcome vtkSignedCharArray :=
  filled ← fill_n insidednessArray (GetNumberOfTuples insidednessArray) 0;
  CellsLoop SelectionList dataset (GetNumberOfTuples insidednessArray) k filled.

(** ** vtkLocationSelector *)

(** Declared in [vtkSelectionNode.h] and [vtkDataObject.h], which are not
    part of the file: the content type [LOCATIONS], the two field
    associations the selector supports, and the conversion of a selection
    field type to an attribute type. *)
Class SelectionConstants : Type := {
  LOCATIONS : Z;
  FIELD_ASSOCIATION_POINTS : Z;
  FIELD_ASSOCIATION_CELLS : Z;
  ConvertSelectionFieldToAttributeType : Z -> Z
}.

Context {CONSTS : SelectionConstants}.

(** [node->GetSelectionList()] is a [vtkAbstractArray]; only a
    [vtkDataArray] survives [vtkDataArray::SafeDownCast]. *)
Inductive vtkAbstractArray : Type :=
| DataArray (a : vtkDataArray)
| OtherArray.

Definition DataArray_SafeDownCast (a : option vtkAbstractArray)
  : option vtkDataArray :=
  match a with
  | Some (DataArray d) => Some d
  | _ => None
  end.

(** What [Initialize] reads from a [vtkSelectionNode]; [EPSILON] is the
    optional entry of the node's properties. *)
Record vtkSelectionNode : Type := {
  GetSelectionList : option vtkAbstractArray;
  GetContentType : Z;
  GetFieldType : Z;
  EPSILON : option scalar
}.

(** The two subclasses of [vtkInternals], each with [SelectionList] and
    [SearchRadius]. *)
Inductive vtkInternals : Type :=
| vtkInternalsForPoints (selList : vtkDataArray) (searchRadius : scalar)
| vtkInternalsForCells (selList : vtkDataArray) (searchRadius : scalar).

(** The virtual [Execute]. *)
Definition Execute (self : vtkInternals) (dataset : vtkDataSet)
  (insidednessArray : vtkSignedCharArray) : outcome (bool * vtkSignedCharArray) :=
  match self with
  | vtkInternalsForPoints selList searchRadius =>
      ExecutePoints selList searchRadius dataset insidednessArray
  | vtkInternalsForCells selList searchRadius =>
      ExecuteCells selList searchRadius dataset insidednessArray
  end.

(** The selector's own member; [nullptr] is [None]. *)
Record vtkLocationSelector : Type := { Internals : option vtkInternals }.

(** The constructor. *)
Definition New : vtkLocationSelector := {| Internals := None |}.

(** What [vtkErrorMacro] reports. *)
Inductive Diagnostic : Type :=
| Only3dLocations
| UnsupportedContentType (contentType : Z)
| UnsupportedFieldType (fieldType : Z).

(** [Initialize(node, insidednessArrayName)]: the selector afterwards and
    the errors reported. [Superclass::Initialize] cannot reach the private
    [Internals], which [reset()] empties before anything is checked. *)
Definition Initialize (self : vtkLocationSelector) (node : vtkSelectionNode)
  : vtkLocationSelector * list Diagnostic :=
  let self := {| Internals := None |} in
  match DataArray_SafeDownCast (GetSelectionList node) with
  | None => (self, [])
  | Some selectionList =>
    if NumberOfTuples selectionList =? 0 then (self, [])
    else if negb (GetNumberOfComponents selectionList =? 3)
    then (self, [Only3dLocations])
    else if negb (GetContentType node =? LOCATIONS)
    then (self, [UnsupportedContentType (GetContentType node)])
    else
      let fieldType := GetFieldType node in
      let assoc := ConvertSelectionFieldToAttributeType fieldType in
      let radius := match EPSILON node with Some e => e | None => zero end in
      if assoc =? FIELD_ASSOCIATION_POINTS
      then ({| Internals := Some (vtkInternalsForPoints selectionList radius) |}, [])
      else if assoc =? FIELD_ASSOCIATION_CELLS
      then ({| Internals := Some (vtkInternalsForCells selectionList radius) |}, [])
      else (self, [UnsupportedFieldType fieldType])
  end.

Definition Finalize (self : vtkLocationSelector) : vtkLocationSelector :=
  {| Internals := None |}.

(** Whether the file is compiled with [NDEBUG], which removes [assert]. *)
Class Build : Type := { NDEBUG : bool }.

Context {BUILD : Build}.

(** [ComputeSelectedElementsForBlock(input, insidednessArray, ...)]. A null
    [input] is [None]: the [assert] of line 217 stops it, unless [NDEBUG]
    compiled the [assert] out, and then the downcast of the null pointer
    fails and the call returns false. The result carries the array as the
    call leaves it, so the array is the object the pointer refers to, which
    the same [assert] requires to exist. *)
Definition ComputeSelectedElementsForBlock (self : vtkLocationSelector)
  (input : option vtkDataObject) (insidednessArray : vtkSignedCharArray)
  : outcome (bool * vtkSignedCharArray) :=
  match input with
  | None => if NDEBUG then Ret (false, insidednessArray) else AssertFailed
  | Some input =>
    let ds := DataSet_SafeDownCast input in
    match Internals self, ds with
    | Some internals, Some ds => Execute internals ds insidednessArray
    | _, _ => Ret (false, insidednessArray)
    end
  end.

(** Whether query [k] resolves to an element, and to which one. *)
Definition point_accepted (sel : vtkDataArray) (r : scalar)
  (ds : vtkDataSet) (k : Z) : bool :=
  0 <=? PointCandidate r ds (GetTuple sel k).

Definition point_id (sel : vtkDataArray) (r : scalar)
  (ds : vtkDataSet) (k : Z) : Z :=
  PointCandidate r ds (GetTuple sel k).

Definition cell_accepted (sel : vtkDataArray) (ds : vtkDataSet)
  (numCells : Z) (k : Z) : bool :=
  (0 <=? FindCell ds (GetTuple sel k)) && (FindCell ds (GetTuple sel k) <? numCells).

Definition cell_id (sel : vtkDataArray) (ds : vtkDataSet) (k : Z) : Z :=
  FindCell ds (GetTuple sel k).

End Selector.

Arguments Vec3 : clear implicits.
Arguments vtkDataArray : clear implicits.
Arguments vtkDataSet : clear implicits.
Arguments vtkDataObject : clear implicits.
Arguments vtkSelectionNode : clear implicits.
Arguments vtkInternals : clear implicits.
Arguments vtkLocationSelector : clear implicits.
Arguments PointLocator : clear implicits.
Arguments CellLocator : clear implicits.

(** Both loop bodies have one shape: when the id the query resolves to is
    accepted, write 1 at it, otherwise leave the array alone. *)
Definition mark (accepted : bool) (id : Z) (a : vtkSignedCharArray)
  : outcome vtkSignedCharArray :=
  if accepted then SetValue a id 1 else Ret a.

Definition mark_body (accepted : Z -> bool) (id : Z -> Z) (k : Z)
  (a : vtkSignedCharArray) : outcome vtkSignedCharArray :=
  mark (accepted k) (id k) a.

(** What one write of 1 does to the entries. *)
Definition writes_one (a a' : vtkSignedCharArray) : Prop :=
  a' = a \/ exists i : Z, 0 <= i < GetNumberOfTuples a /\ a' = <[Z.to_nat i := 1]> a.

(** ** The collaborators as the specification describes them *)

Section SpecModel.

Context {scalar : Type} {SC : Scalar scalar}.

(** Modelled from the spec: the search behind both point queries is not
    part of the file. Section 6 asks for the id of the geometrically closest
    point; this scan over the ids [0 .. n-1] keeps the lowest id among
    equidistant points and answers -1 over no points. *)
Fixpoint ClosestAmong (getPoint : Z -> Vec3 scalar) (x : Vec3 scalar) (n : nat) : Z :=
  match n with
  | O => -1
  | S k =>
    let best := ClosestAmong getPoint x k in
    if best <? 0 then Z.of_nat k
    else if gtb (Distance2BetweenPoints (getPoint best) x)
                (Distance2BetweenPoints (getPoint (Z.of_nat k)) x)
         then Z.of_nat k
         else best
  end.

(** Modelled from the spec: [vtkDataSet::FindPoint] of a dataset without
    explicit point storage is not part of the file. Section 6: it returns
    the id of the geometrically closest point, with no radius awareness. *)
Definition SpecDataSet (numPoints : Z) (getPoint : Z -> Vec3 scalar)
  (isPointSet : bool) : vtkDataSet scalar :=
  {| GetNumberOfPoints := numPoints;
     IsA_vtkPointSet := isPointSet;
     FindPoint := fun x => ClosestAmong getPoint x (Z.to_nat numPoints);
     GetPoint := getPoint |}.

(** Modelled from the spec: [vtkStaticPointLocator] is not part of the file.
    Section 6: find the nearest point to [x] within radius [r], returning a
    point id, or none (-1) if no point lies within [r]. The squared distance
    it also returns is not read by the matcher. *)
Definition SpecFindClosestPointWithinRadius (dataset : vtkDataSet scalar)
  (radius : scalar) (x : Vec3 scalar) : Z :=
  let id := ClosestAmong (GetPoint dataset) x (Z.to_nat (GetNumberOfPoints dataset)) in
  if 0 <=? id
  then if gtb (Distance2BetweenPoints (GetPoint dataset id) x) (mul radius radius)
       then -1 else id
  else -1.

Definition SpecPointLocator : PointLocator scalar :=
  {| FindClosestPointWithinRadius := SpecFindClosestPointWithinRadius |}.

End SpecModel.

(** ** The point queries as the specification describes them *)

Section PointQueries.

Context {scalar : Type} {SC : Scalar scalar} {PL : PointLocator scalar}.



End PointQueries.

(** The laws the comparison of the code's arithmetic keeps: [gtb] is a
    strict partial order, and "not greater" chains through every value that
    is a number. In binary64 every value but NaN is a number. *)
Class ScalarOrder (T : Type) {SC : Scalar T} : Type := {
  is_number : T -> bool;
  gtb_irrefl : forall a : T, gtb a a = false;
  gtb_trans : forall a b c : T, gtb a b = true -> gtb b c = true -> gtb a c = true;
  gtb_through_number : forall a b c : T,
    is_number b = true -> gtb a b = false -> gtb b c = false -> gtb a c = false
}.

(** ** Example data *)

(** Decimal literals denote the nearest binary64 value, as in C++. *)
Set Warnings "-inexact-float".

(** A selection list of 3-d locations. *)
Definition Locations {scalar : Type} (l : list (list scalar)) : vtkDataArray scalar :=
  {| GetNumberOfComponents := 3; Tuples := l |}.

(** The coordinates of point [id] in an explicit list of points. *)
Definition PointAt {scalar : Type} {SC : Scalar scalar} (pts : list (Vec3 scalar))
  (id : Z) : Vec3 scalar :=
  default (mkVec3 zero zero zero) (pts !! Z.to_nat id).

(** The four points (0,0,0), (1,0,0), (0,1,0), (0,0,1) of scenarios A and B,
    as a dataset with explicit points and as one without. *)
Definition FourPoints : list (Vec3 float) :=
  [ mkVec3 0%float 0%float 0%float; mkVec3 1%float 0%float 0%float;
    mkVec3 0%float 1%float 0%float; mkVec3 0%float 0%float 1%float ].

Definition FourPointSet : vtkDataSet float := SpecDataSet 4 (PointAt FourPoints) true.

Definition FourPointImage : vtkDataSet float := SpecDataSet 4 (PointAt FourPoints) false.

Definition EmptyDataSet : vtkDataSet float := SpecDataSet 0 (PointAt []) true.

(** A cell locator over a single cell that contains exactly the locations
    with all coordinates in [0, 1]; it answers -1 elsewhere. *)
Definition UnitCellLocator : CellLocator float :=
  {| FindCell := fun _ x =>
       if (PrimFloat.leb 0 (c0 x) && PrimFloat.leb (c0 x) 1 &&
           PrimFloat.leb 0 (c1 x) && PrimFloat.leb (c1 x) 1 &&
           PrimFloat.leb 0 (c2 x) && PrimFloat.leb (c2 x) 1)%bool
       then 0 else -1 |}.

(** One assignment of the constants of the selection node, to run the
    selector on examples. *)
Definition SampleConstants : SelectionConstants :=
  {| LOCATIONS := 6;
     FIELD_ASSOCIATION_POINTS := 0;
     FIELD_ASSOCIATION_CELLS := 1;
     ConvertSelectionFieldToAttributeType := fun fieldType =>
       if fieldType =? 0 then 1 else if fieldType =? 1 then 0 else 7 |}.

(** Scenario D: a selection list with two components per tuple. *)
Definition TwoComponentNode : vtkSelectionNode float :=
  {| GetSelectionList :=
       Some (DataArray {| GetNumberOfComponents := 2;
                          Tuples := [[0.5%float; 0.5%float]] |});
     GetContentType := 6;
     GetFieldType := 1;
     EPSILON := None |}.

(** A point selection at (0.01,0,0) with radius 0.1 (scenario A). *)
Definition NearOriginNode : vtkSelectionNode float :=
  {| GetSelectionList :=
       Some (DataArray (Locations [[0.01%float; 0%float; 0%float]]));
     GetContentType := 6;
     GetFieldType := 1;
     EPSILON := Some 0.1%float |}.




(** The two builds. *)
Definition DebugBuild : Build := {| NDEBUG := false |}.

Definition ReleaseBuild : Build := {| NDEBUG := true |}.

(** ** Tuples of the selection list *)

(** The [double[3]] that [GetTuple] fills from one tuple of the list. *)
Definition TupleVec3 {scalar : Type} {SC : Scalar scalar} (t : list scalar)
  : Vec3 scalar :=
  mkVec3 (default zero (t !! 0%nat)) (default zero (t !! 1%nat))
         (default zero (t !! 2%nat)).

(** * Properties *)

(** ** Arrays and loops *)

Lemma fill_n_exact (a : vtkSignedCharArray) (n v : Z) :
  GetNumberOfTuples a = n -> fill_n a n v = Ret (replicate (length a) v).
Proof.
  intros <-. unfold fill_n, GetNumberOfTuples.
  rewrite Z.leb_refl, Nat2Z.id, drop_all, app_nil_r. reflexivity.
Qed.

Lemma SetValue_in_range (a : vtkSignedCharArray) (i v : Z) :
  0 <= i < GetNumberOfTuples a -> SetValue a i v = Ret (<[Z.to_nat i := v]> a).
Proof.
  intros [H0 H1]. unfold SetValue.
  apply Z.leb_le in H0. apply Z.ltb_lt in H1. rewrite H0, H1. reflexivity.
Qed.

Lemma SetValue_Ret (a a' : vtkSignedCharArray) (i v : Z) :
  SetValue a i v = Ret a' ->
  0 <= i < GetNumberOfTuples a /\ a' = <[Z.to_nat i := v]> a.
Proof.
  unfold SetValue. intros H.
  destruct (Z.leb_spec 0 i), (Z.ltb_spec i (GetNumberOfTuples a));
    simpl in H; try discriminate.
  injection H as <-. auto.
Qed.

Lemma bind_Ret {A B : Type} (c : outcome A) (k : A -> outcome B) (b : B) :
  c ≫= k = Ret b -> exists a, c = Ret a /\ k a = Ret b.
Proof. destruct c as [a| |]; simpl; intros H; try discriminate. eauto. Qed.

Lemma for_loop_S {A : Type} (body : Z -> A -> outcome A) (n : nat) (a : A) :
  for_loop body (S n) a = for_loop body n a ≫= body (Z.of_nat n).
Proof. reflexivity. Qed.

Lemma writes_one_keeps (a a' : vtkSignedCharArray) (i : nat) :
  writes_one a a' -> a !! i = Some 1 -> a' !! i = Some 1.
Proof.
  intros [->|(j & Hj & ->)] Hi; [done|].
  destruct (decide (Z.to_nat j = i)) as [<-|Hne].
  - apply list_lookup_insert_eq. unfold GetNumberOfTuples in Hj. lia.
  - rewrite list_lookup_insert_ne; done.
Qed.

Lemma writes_one_length (a a' : vtkSignedCharArray) :
  writes_one a a' -> length a' = length a.
Proof. intros [->|(j & _ & ->)]; [done|]. apply length_insert. Qed.

Lemma mark_writes_one (accepted : bool) (id : Z) (a a' : vtkSignedCharArray) :
  mark accepted id a = Ret a' -> writes_one a a'.
Proof.
  unfold mark. destruct accepted; intros H.
  - apply SetValue_Ret in H as [Hr ->]. right. eauto.
  - injection H as <-. left. reflexivity.
Qed.

(** The loops of both matchers, as loops of [mark]. *)
Section MarkLoop.

Variable accepted : Z -> bool.
Variable id : Z -> Z.

Lemma mark_loop_monotone (j k : nat) (a aj ak : vtkSignedCharArray) (i : nat) :
  (j <= k)%nat ->
  for_loop (mark_body accepted id) j a = Ret aj -> for_loop (mark_body accepted id) k a = Ret ak ->
  aj !! i = Some 1 -> ak !! i = Some 1.
Proof.
  intros Hjk Hj. revert ak. induction Hjk as [|k Hjk IH]; intros ak Hk Hi.
  - congruence.
  - rewrite for_loop_S in Hk. apply bind_Ret in Hk as (a' & Hk & Hb).
    apply mark_writes_one in Hb. eapply writes_one_keeps; eauto.
Qed.

Lemma mark_loop_length (n : nat) (a an : vtkSignedCharArray) :
  for_loop (mark_body accepted id) n a = Ret an -> length an = length a.
Proof.
  revert an. induction n as [|n IH]; intros an Hn.
  - injection Hn as <-. reflexivity.
  - rewrite for_loop_S in Hn. apply bind_Ret in Hn as (a' & Hn & Hb).
    apply mark_writes_one, writes_one_length in Hb. rewrite Hb. auto.
Qed.

(** When every accepted id is inside the array, the loop returns, and the
    entries it leaves at 1 are those some iteration accepted. *)
Lemma mark_loop_spec (n : nat) (a0 : vtkSignedCharArray) :
  (forall k : nat, (k < n)%nat -> accepted (Z.of_nat k) = true ->
     0 <= id (Z.of_nat k) < GetNumberOfTuples a0) ->
  exists a, for_loop (mark_body accepted id) n a0 = Ret a /\ length a = length a0 /\
    (forall (k : nat), (k < n)%nat -> accepted (Z.of_nat k) = true ->
       a !! Z.to_nat (id (Z.of_nat k)) = Some 1) /\
    (forall i : nat,
       (forall k : nat, (k < n)%nat -> accepted (Z.of_nat k) = true ->
          Z.to_nat (id (Z.of_nat k)) <> i) ->
       a !! i = a0 !! i).
Proof.
  induction n as [|n IH]; intros Hrange.
  - exists a0. split; [done|]. split; [done|]. split; [intros; lia|done].
  - destruct IH as (a & Hloop & Hlen & Hone & Hrest).
    { intros k Hk. apply Hrange. lia. }
    rewrite for_loop_S, Hloop. simpl. unfold mark_body at 1, mark.
    destruct (accepted (Z.of_nat n)) eqn:Hacc.
    + assert (Hin : 0 <= id (Z.of_nat n) < GetNumberOfTuples a).
      { unfold GetNumberOfTuples. rewrite Hlen. apply Hrange; [lia|done]. }
      rewrite SetValue_in_range by done.
      eexists. split; [reflexivity|]. rewrite length_insert.
      split; [done|]. split.
      * intros k Hk Hk1.
        destruct (decide (Z.to_nat (id (Z.of_nat n)) = Z.to_nat (id (Z.of_nat k))))
          as [Heq|Hne].
        -- rewrite <- Heq. apply list_lookup_insert_eq.
           unfold GetNumberOfTuples in Hin. lia.
        -- rewrite list_lookup_insert_ne by done.
           destruct (decide (k = n)) as [->|Hkn]; [done|].
           apply Hone; [lia|done].
      * intros i Hi. rewrite list_lookup_insert_ne by (apply Hi; [lia|done]).
        apply Hrest. intros k Hk. apply Hi. lia.
    + exists a. split; [reflexivity|]. split; [done|]. split.
      * intros k Hk Hk1. destruct (decide (k = n)) as [->|Hkn]; [congruence|].
        apply Hone; [lia|done].
      * intros i Hi. apply Hrest. intros k Hk. apply Hi. lia.
Qed.

End MarkLoop.

Section Properties.

Context {scalar : Type} {SC : Scalar scalar}.
Context {PL : PointLocator scalar} {CL : CellLocator scalar}.
Context {CONSTS : SelectionConstants} {BUILD : Build}.

(** ** The matchers as loops of [mark] *)

Lemma for_loop_ext {A : Type} (f g : Z -> A -> outcome A) (n : nat) (a : A) :
  (forall k x, f k x = g k x) -> for_loop f n a = for_loop g n a.
Proof.
  intros Hfg. induction n as [|n IH]; [reflexivity|].
  rewrite !for_loop_S, IH. destruct (for_loop g n a); simpl; auto.
Qed.

Lemma PointsBody_mark sel r ds k m :
  PointsBody sel r ds k m = mark_body (point_accepted sel r ds) (point_id sel r ds) k m.
Proof.
  unfold PointsBody, mark_body, mark, point_accepted, point_id, SetTypedComponent.
  rewrite Z.mul_1_r, Z.add_0_r. reflexivity.
Qed.

Lemma PointsLoop_mark sel r ds n m :
  PointsLoop sel r ds n m
  = for_loop (mark_body (point_accepted sel r ds) (point_id sel r ds)) n m.
Proof. apply for_loop_ext. intros. apply PointsBody_mark. Qed.

Lemma CellsBody_mark sel ds numCells k m :
  CellsBody sel ds numCells k m
  = mark_body (cell_accepted sel ds numCells) (cell_id sel ds) k m.
Proof. reflexivity. Qed.

Lemma CellsLoop_mark sel ds numCells n m :
  CellsLoop sel ds numCells n m
  = for_loop (mark_body (cell_accepted sel ds numCells) (cell_id sel ds)) n m.
Proof. reflexivity. Qed.

Lemma ExecutePoints_PointsAfter sel r ds mask :
  0 < GetNumberOfPoints ds ->
  ExecutePoints sel r ds mask
  = PointsAfter sel r ds mask (Z.to_nat (NumberOfTuples sel)) ≫= fun m => Ret (true, m).
Proof.
  intros Hn. unfold ExecutePoints, PointsAfter.
  destruct (Z.leb_spec (GetNumberOfPoints ds) 0); [lia|].
  destruct (fill_n mask (GetNumberOfPoints ds) 0); reflexivity.
Qed.

Lemma ExecuteCells_CellsAfter sel r ds mask :
  ExecuteCells sel r ds mask
  = CellsAfter sel ds mask (Z.to_nat (NumberOfTuples sel)) ≫= fun m => Ret (true, m).
Proof.
  unfold ExecuteCells, CellsAfter.
  destruct (fill_n mask (GetNumberOfTuples mask) 0); reflexivity.
Qed.

(** The cell loop returns from every array: accepted ids are in range. *)
Lemma CellsAfter_returns sel ds mask (k : nat) :
  exists m, CellsAfter sel ds mask k = Ret m /\ length m = length mask.
Proof.
  unfold CellsAfter. rewrite (fill_n_exact mask _ 0) by reflexivity. simpl.
  rewrite CellsLoop_mark.
  destruct (mark_loop_spec (cell_accepted sel ds (GetNumberOfTuples mask))
              (cell_id sel ds) k (replicate (length mask) 0))
    as (m & Hm & Hlen & _).
  - intros j _ Hacc. unfold cell_accepted, cell_id in *.
    apply andb_true_iff in Hacc as [H0 H1].
    apply Z.leb_le in H0. apply Z.ltb_lt in H1.
    unfold GetNumberOfTuples in *. rewrite length_replicate. lia.
  - exists m. rewrite length_replicate in Hlen. done.
Qed.

(** ** The cell matcher *)

(** C3: at every query location [k] the array before the query has the
    length of the caller's array; when [FindCell] answers an id [cid] with
    [0 <= cid < numCells] the query writes 1 at [cid], and otherwise it
    leaves the array as it was. The loop therefore never ends in
    [OutOfBounds]. *)
Theorem CellsBody_writes_in_range_only :
  forall (sel : vtkDataArray scalar) (ds : vtkDataSet scalar)
         (mask : vtkSignedCharArray) (k : nat),
    Z.of_nat k < NumberOfTuples sel ->
    let numCells := GetNumberOfTuples mask in
    let cid := FindCell ds (GetTuple sel (Z.of_nat k)) in
    exists m,
      CellsAfter sel ds mask k = Ret m /\
      GetNumberOfTuples m = numCells /\
      CellsAfter sel ds mask (S k)
      = Ret (if (0 <=? cid) && (cid <? numCells) then <[Z.to_nat cid := 1]> m else m).
Proof.
  intros sel ds mask k _ numCells cid.
  destruct (CellsAfter_returns sel ds mask k) as (m & Hm & Hlen).
  exists m. split; [done|].
  split; [subst numCells; unfold GetNumberOfTuples; lia|].
  revert Hm. unfold CellsAfter.
  rewrite (fill_n_exact mask _ 0) by reflexivity. simpl.
  unfold CellsLoop. rewrite for_loop_S. intros ->. simpl.
  unfold CellsBody. change (FindCell ds (GetTuple sel (Z.of_nat k))) with cid.
  change (GetNumberOfTuples mask) with numCells.
  destruct (Z.leb_spec 0 cid), (Z.ltb_spec cid numCells); simpl; try reflexivity.
  apply SetValue_in_range. subst numCells. unfold GetNumberOfTuples in *. lia.
Qed.

(** ** The point matcher *)

Lemma fill_n_Ret (a m : vtkSignedCharArray) (n : Z) :
  fill_n a n 0 = Ret m ->
  length m = length a /\
  forall i : nat, (i < Z.to_nat n)%nat -> m !! i = Some 0.
Proof.
  unfold fill_n, GetNumberOfTuples. destruct (Z.leb_spec n (Z.of_nat (length a)));
    [|discriminate].
  intros H1. injection H1 as <-. split.
  - rewrite length_app, length_replicate, length_drop. lia.
  - intros i Hi. rewrite lookup_app_l by (rewrite length_replicate; lia).
    apply lookup_replicate_2. done.
Qed.

(** When the array has one entry per point and every id the queries resolve
    to is a point id, the loop returns, with 1 at exactly the ids some query
    resolved to and 0 elsewhere. *)
Lemma PointsAfter_spec sel r ds mask (n : nat) :
  GetNumberOfTuples mask = GetNumberOfPoints ds ->
  (forall k : nat, (k < n)%nat ->
     PointCandidate r ds (GetTuple sel (Z.of_nat k)) < GetNumberOfPoints ds) ->
  exists m, PointsAfter sel r ds mask n = Ret m /\ length m = length mask /\
    (forall k : nat, (k < n)%nat ->
       0 <= PointCandidate r ds (GetTuple sel (Z.of_nat k)) ->
       m !! Z.to_nat (PointCandidate r ds (GetTuple sel (Z.of_nat k))) = Some 1) /\
    (forall i : nat,
       (forall k : nat, (k < n)%nat ->
          0 <= PointCandidate r ds (GetTuple sel (Z.of_nat k)) ->
          Z.to_nat (PointCandidate r ds (GetTuple sel (Z.of_nat k))) <> i) ->
       m !! i = replicate (length mask) 0 !! i).
Proof.
  intros Hlen Hrange. unfold PointsAfter.
  rewrite (fill_n_exact mask _ 0) by done. simpl. rewrite PointsLoop_mark.
  destruct (mark_loop_spec (point_accepted sel r ds) (point_id sel r ds) n
              (replicate (length mask) 0)) as (m & Hm & Hl & Hone & Hrest).
  - intros k Hk Hacc. unfold point_accepted, point_id in *.
    apply Z.leb_le in Hacc. specialize (Hrange k Hk).
    unfold GetNumberOfTuples in *. rewrite length_replicate. lia.
  - exists m. rewrite length_replicate in Hl. split; [done|]. split; [done|].
    unfold point_accepted, point_id in *. split.
    + intros k Hk H0. apply Hone; [done|]. apply Z.leb_le. done.
    + intros i Hi. apply Hrest. intros k Hk Hacc. apply Hi; [done|].
      apply Z.leb_le. done.
Qed.

(** C2: [Execute] of the point matcher returns false, handing the array back
    as it was, when the dataset has no point; whatever it returns, it returns
    true exactly when the dataset has a point; over a dataset with points,
    an array of one entry per point and queries that resolve to point ids
    (or to none) it does return true, and when no query resolves to a point
    it returns true with every entry 0. *)
Theorem ExecutePoints_true_iff_has_points :
  forall (sel : vtkDataArray scalar) (r : scalar) (ds : vtkDataSet scalar)
         (mask : vtkSignedCharArray),
    (GetNumberOfPoints ds <= 0 -> ExecutePoints sel r ds mask = Ret (false, mask)) /\
    (forall b m, ExecutePoints sel r ds mask = Ret (b, m) ->
       (b = true <-> 0 < GetNumberOfPoints ds)) /\
    (0 < GetNumberOfPoints ds ->
     GetNumberOfTuples mask = GetNumberOfPoints ds ->
     (forall k : nat, Z.of_nat k < NumberOfTuples sel ->
        PointCandidate r ds (GetTuple sel (Z.of_nat k)) < GetNumberOfPoints ds) ->
     exists m, ExecutePoints sel r ds mask = Ret (true, m)) /\
    (0 < GetNumberOfPoints ds ->
     GetNumberOfTuples mask = GetNumberOfPoints ds ->
     (forall k : nat, Z.of_nat k < NumberOfTuples sel ->
        PointCandidate r ds (GetTuple sel (Z.of_nat k)) < 0) ->
     ExecutePoints sel r ds mask = Ret (true, replicate (length mask) 0)).
Proof.
  intros sel r ds mask. split; [|split; [|split]].
  - intros Hn. unfold ExecutePoints.
    destruct (Z.leb_spec (GetNumberOfPoints ds) 0); [reflexivity|lia].
  - intros b m. unfold ExecutePoints.
    destruct (Z.leb_spec (GetNumberOfPoints ds) 0) as [Hn|Hn].
    + intros H. injection H as <- _. split; [discriminate|lia].
    + intros H. apply bind_Ret in H as (f & _ & H).
      apply bind_Ret in H as (m' & _ & H). injection H as <- _. done.
  - intros Hn Hlen Hrange. rewrite ExecutePoints_PointsAfter by done.
    destruct (PointsAfter_spec sel r ds mask (Z.to_nat (NumberOfTuples sel)))
      as (m & -> & _); [done| |by exists m].
    intros k Hk. apply Hrange. lia.
  - intros Hn Hlen Hnone. rewrite ExecutePoints_PointsAfter by done.
    destruct (PointsAfter_spec sel r ds mask (Z.to_nat (NumberOfTuples sel)))
      as (m & -> & Hl & _ & Hrest); [done| |].
    + intros k Hk. specialize (Hnone k). lia.
    + simpl. do 2 f_equal. apply list_eq. intros i. apply Hrest.
      intros k Hk H0. specialize (Hnone k). lia.
Qed.

(** C9: over a dataset with points and arrays of one entry per point, the
    result of [Execute] of the point matcher (the returned flag and the
    array) does not depend on what the array held before the call; in
    particular a second call on the array the first one left returns the
    same flag and the same array. *)
Theorem ExecutePoints_deterministic :
  forall (sel : vtkDataArray scalar) (r : scalar) (ds : vtkDataSet scalar)
         (mask1 mask2 : vtkSignedCharArray),
    0 < GetNumberOfPoints ds ->
    GetNumberOfTuples mask1 = GetNumberOfPoints ds ->
    GetNumberOfTuples mask2 = GetNumberOfPoints ds ->
    ExecutePoints sel r ds mask1 = ExecutePoints sel r ds mask2 /\
    (forall b m, ExecutePoints sel r ds mask1 = Ret (b, m) ->
       ExecutePoints sel r ds m = Ret (b, m)).
Proof.
  intros sel r ds mask1 mask2 Hn H1 H2.
  assert (Hindep : forall a b : vtkSignedCharArray,
    GetNumberOfTuples a = GetNumberOfPoints ds ->
    GetNumberOfTuples b = GetNumberOfPoints ds ->
    ExecutePoints sel r ds a = ExecutePoints sel r ds b).
  { intros a b Ha Hb. rewrite !ExecutePoints_PointsAfter by done.
    unfold PointsAfter. rewrite !(fill_n_exact _ _ 0) by done.
    unfold GetNumberOfTuples in *. replace (length a) with (length b) by lia.
    reflexivity. }
  split; [by apply Hindep|].
  intros b m Hrun. rewrite <- Hrun. apply Hindep; [|done].
  rewrite ExecutePoints_PointsAfter in Hrun by done.
  apply bind_Ret in Hrun as (m' & Hrun & Hret). injection Hret as <- <-.
  unfold PointsAfter in Hrun. apply bind_Ret in Hrun as (f & Hf & Hrun).
  apply fill_n_Ret in Hf as [Hf _]. rewrite PointsLoop_mark in Hrun.
  apply mark_loop_length in Hrun. unfold GetNumberOfTuples in *. lia.
Qed.

(** C1: on a dataset without explicit points, at a query location [k] for
    which [FindPoint] answers an id [ptId >= 0], the query resolves to no
    point (-1) exactly when the squared distance between point [ptId] and
    the location is greater than the squared radius, and then the array
    stays as it was before the query; otherwise the query resolves to
    [ptId] and writes 1 at it. *)
Theorem PointsBody_lookup_rejects_beyond_radius :
  forall (sel : vtkDataArray scalar) (r : scalar) (ds : vtkDataSet scalar)
         (mask m : vtkSignedCharArray) (k : nat),
    let location := GetTuple sel (Z.of_nat k) in
    let ptId := FindPoint ds location in
    let distance := Distance2BetweenPoints (GetPoint ds ptId) location in
    IsA_vtkPointSet ds = false ->
    Z.of_nat k < NumberOfTuples sel ->
    0 <= ptId ->
    PointsAfter sel r ds mask k = Ret m ->
    (PointCandidate r ds location = -1 <-> gtb distance (mul r r) = true) /\
    (gtb distance (mul r r) = true ->
       PointsAfter sel r ds mask (S k) = Ret m) /\
    (gtb distance (mul r r) = false ->
       PointCandidate r ds location = ptId /\
       PointsAfter sel r ds mask (S k) = SetTypedComponent m ptId 0 1 /\
       (ptId < GetNumberOfTuples m ->
          PointsAfter sel r ds mask (S k) = Ret (<[Z.to_nat ptId := 1]> m))).
Proof.
  intros sel r ds mask m k location ptId distance Hlookup _ Hpt Hm.
  assert (Hcand : PointCandidate r ds location
                  = if gtb distance (mul r r) then -1 else ptId).
  { unfold PointCandidate. rewrite Hlookup.
    change (FindPoint ds location) with ptId.
    destruct (Z.leb_spec 0 ptId); [reflexivity|lia]. }
  assert (Hstep : PointsAfter sel r ds mask (S k)
                  = PointsBody sel r ds (Z.of_nat k) m).
  { revert Hm. unfold PointsAfter.
    destruct (fill_n mask (GetNumberOfPoints ds) 0); simpl; try discriminate.
    unfold PointsLoop. rewrite for_loop_S. intros ->. reflexivity. }
  rewrite Hstep, Hcand. unfold PointsBody.
  change (GetTuple sel (Z.of_nat k)) with location. rewrite Hcand.
  destruct (gtb distance (mul r r)).
  - split; [done|]. split; [reflexivity|discriminate].
  - split; [split; [lia|discriminate]|]. split; [discriminate|].
    intros _. split; [reflexivity|].
    destruct (Z.leb_spec 0 ptId); [|lia]. split; [reflexivity|].
    intros Hlt. unfold SetTypedComponent. rewrite Z.mul_1_r, Z.add_0_r.
    apply SetValue_in_range. lia.
Qed.

(** ** Both matchers *)

(** C7: in a call of either matcher (whose result is the array after the
    fill and all query locations) the fill leaves 0 at every entry it
    covers; each query location after it either leaves the array as it was
    or writes the value 1 at one entry; so an entry that is 1 after some
    query is still 1 after every later one. *)
Theorem writes_after_fill_only_set_entries :
  forall (sel : vtkDataArray scalar) (r : scalar) (ds : vtkDataSet scalar)
         (mask : vtkSignedCharArray),
    ((forall m, ExecutePoints sel r ds mask = Ret (true, m) ->
        PointsAfter sel r ds mask (Z.to_nat (NumberOfTuples sel)) = Ret m) /\
     (forall m (i : nat), PointsAfter sel r ds mask 0 = Ret m ->
        (i < Z.to_nat (GetNumberOfPoints ds))%nat -> m !! i = Some 0) /\
     (forall (k : nat) m m', PointsAfter sel r ds mask k = Ret m ->
        PointsAfter sel r ds mask (S k) = Ret m' -> writes_one m m') /\
     (forall (j k : nat) mj mk (i : nat), (j <= k)%nat ->
        PointsAfter sel r ds mask j = Ret mj ->
        PointsAfter sel r ds mask k = Ret mk ->
        mj !! i = Some 1 -> mk !! i = Some 1)) /\
    ((forall m, ExecuteCells sel r ds mask = Ret (true, m) ->
        CellsAfter sel ds mask (Z.to_nat (NumberOfTuples sel)) = Ret m) /\
     (forall m (i : nat), CellsAfter sel ds mask 0 = Ret m ->
        (i < length mask)%nat -> m !! i = Some 0) /\
     (forall (k : nat) m m', CellsAfter sel ds mask k = Ret m ->
        CellsAfter sel ds mask (S k) = Ret m' -> writes_one m m') /\
     (forall (j k : nat) mj mk (i : nat), (j <= k)%nat ->
        CellsAfter sel ds mask j = Ret mj ->
        CellsAfter sel ds mask k = Ret mk ->
        mj !! i = Some 1 -> mk !! i = Some 1)).
Proof.
  intros sel r ds mask. split.
  - split.
    { intros m. unfold ExecutePoints.
      destruct (Z.leb_spec (GetNumberOfPoints ds) 0) as [Hn|Hn]; [discriminate|].
      unfold PointsAfter.
      destruct (fill_n mask (GetNumberOfPoints ds) 0) as [f| |]; simpl;
        try discriminate.
      destruct (PointsLoop sel r ds _ f); simpl; congruence. }
    unfold PointsAfter.
    destruct (fill_n mask (GetNumberOfPoints ds) 0) as [f| |] eqn:Hf; simpl;
      try (repeat split; intros; discriminate).
    split; [|split].
    + intros m i Hm Hi. injection Hm as <-. apply fill_n_Ret in Hf as [_ Hf]. auto.
    + intros k m m' Hm. unfold PointsLoop in *. rewrite for_loop_S, Hm. simpl.
      rewrite PointsBody_mark. apply mark_writes_one.
    + intros j k mj mk i Hjk. rewrite !PointsLoop_mark.
      apply mark_loop_monotone. done.
  - split.
    { intros m. rewrite ExecuteCells_CellsAfter.
      destruct (CellsAfter sel ds mask _); simpl; congruence. }
    unfold CellsAfter.
    destruct (fill_n mask (GetNumberOfTuples mask) 0) as [f| |] eqn:Hf; simpl;
      try (repeat split; intros; discriminate).
    split; [|split].
    + intros m i Hm Hi. injection Hm as <-. apply fill_n_Ret in Hf as [_ Hf].
      apply Hf. unfold GetNumberOfTuples. lia.
    + intros k m m' Hm. unfold CellsLoop in *. rewrite for_loop_S, Hm. simpl.
      rewrite CellsBody_mark. apply mark_writes_one.
    + intros j k mj mk i Hjk. rewrite !CellsLoop_mark.
      apply mark_loop_monotone. done.
Qed.

(** ** The selector *)

(** C4: when the selection list has a number of components other than 3, or
    the content type is not [LOCATIONS], or the field type converts to
    neither the point nor the cell association, [Initialize] constructs no
    matcher: [Internals] is left unset, whatever it held before. *)
Theorem Initialize_invalid_leaves_Internals_unset :
  forall (self : vtkLocationSelector scalar) (node : vtkSelectionNode scalar),
    (exists a, DataArray_SafeDownCast (GetSelectionList node) = Some a /\
               GetNumberOfComponents a <> 3) \/
    GetContentType node <> LOCATIONS \/
    (ConvertSelectionFieldToAttributeType (GetFieldType node)
       <> FIELD_ASSOCIATION_POINTS /\
     ConvertSelectionFieldToAttributeType (GetFieldType node)
       <> FIELD_ASSOCIATION_CELLS) ->
    Internals (Initialize self node).1 = None.
Proof.
  intros self node Hbad. unfold Initialize.
  destruct (DataArray_SafeDownCast (GetSelectionList node)) as [a|] eqn:Hlist;
    [|reflexivity].
  destruct (NumberOfTuples a =? 0); [reflexivity|].
  destruct (Z.eqb_spec (GetNumberOfComponents a) 3) as [H3|H3]; simpl;
    [|reflexivity].
  destruct (Z.eqb_spec (GetContentType node) LOCATIONS) as [Hc|Hc]; simpl;
    [|reflexivity].
  destruct (Z.eqb_spec (ConvertSelectionFieldToAttributeType (GetFieldType node))
              FIELD_ASSOCIATION_POINTS) as [Hp|Hp].
  - destruct Hbad as [(a' & Ha' & Hn)|[Hn|[Hn _]]]; [congruence|done|done].
  - destruct (Z.eqb_spec (ConvertSelectionFieldToAttributeType (GetFieldType node))
                FIELD_ASSOCIATION_CELLS) as [Hq|Hq]; [|reflexivity].
    destruct Hbad as [(a' & Ha' & Hn)|[Hn|[_ Hn]]]; [congruence|done|done].
Qed.

(** C5: with no matcher ([Internals] unset), [ComputeSelectedElementsForBlock]
    on a block and an array returns false and hands the array back as the
    caller provided it. *)
Theorem ComputeSelectedElementsForBlock_disabled :
  forall (self : vtkLocationSelector scalar) (input : vtkDataObject scalar)
         (insidednessArray : vtkSignedCharArray),
    Internals self = None ->
    ComputeSelectedElementsForBlock self (Some input) insidednessArray
    = Ret (false, insidednessArray).
Proof.
  intros self input insidednessArray Hnone.
  unfold ComputeSelectedElementsForBlock. rewrite Hnone. reflexivity.
Qed.

(** C10: on an input that is not a [vtkDataSet] the call returns false and
    hands the array back untouched, also when a matcher is set; and whenever
    the call does anything else, it is [Execute] of the matcher on the
    dataset the input was cast to. *)
Theorem ComputeSelectedElementsForBlock_not_a_dataset :
  forall (self : vtkLocationSelector scalar) (insidednessArray : vtkSignedCharArray),
    ComputeSelectedElementsForBlock self (Some OtherDataObject)
      insidednessArray = Ret (false, insidednessArray) /\
    forall input : vtkDataObject scalar,
      ComputeSelectedElementsForBlock self (Some input) insidednessArray
      = Ret (false, insidednessArray) \/
      exists internals ds,
        Internals self = Some internals /\ input = DataSet ds /\
        ComputeSelectedElementsForBlock self (Some input) insidednessArray
        = Execute internals ds insidednessArray.
Proof.
  intros self insidednessArray. split.
  - unfold ComputeSelectedElementsForBlock. simpl.
    destruct (Internals self); reflexivity.
  - intros input. unfold ComputeSelectedElementsForBlock.
    destruct (Internals self) as [internals|] eqn:Hint, input as [ds|]; simpl;
      try (left; reflexivity).
    right. exists internals, ds. done.
Qed.

End Properties.

(** ** The point matcher over the collaborators of the specification *)

Lemma bounded_search (P : nat -> Prop) (n : nat) :
  (forall k, Decision (P k)) ->
  (exists k, (k < n)%nat /\ P k) \/ (forall k, (k < n)%nat -> ~ P k).
Proof.
  intros Hdec. induction n as [|n [(k & Hk & HP)|IH]].
  - right. intros k Hk. lia.
  - left. exists k. split; [lia|done].
  - destruct (Hdec n) as [HP|HP].
    + left. exists n. split; [lia|done].
    + right. intros k Hk. destruct (decide (k = n)) as [->|Hne]; [done|].
      apply IH. lia.
Qed.

(** The comparison of binary64, read off its specification [SFcompare]. *)

Ltac sf_order :=
  unfold SFltb, SFeqb, SFcompare;
  repeat match goal with
         | b : bool |- _ => destruct b
         end;
  simpl; try congruence;
  repeat match goal with
         | |- context [Z.compare ?a ?b] => destruct (Z.compare_spec a b); subst
         | |- context [Pos.compare_cont Eq ?a ?b] =>
             change (Pos.compare_cont Eq a b) with (Pos.compare a b)
         | |- context [Pos.compare ?a ?b] => destruct (Pos.compare_spec a b); subst
         end;
  simpl; try congruence; try lia.

Lemma SFltb_irrefl (x : spec_float) : SFltb x x = false.
Proof. destruct x as [s|s| |s m e]; sf_order. Qed.

Lemma SFltb_trans (x y z : spec_float) :
  SFltb x y = true -> SFltb y z = true -> SFltb x z = true.
Proof.
  destruct x as [sx|sx| |sx mx ex], y as [sy|sy| |sy my ey],
           z as [sz|sz| |sz mz ez]; sf_order.
Qed.

Lemma SFltb_through (x y z : spec_float) :
  SFeqb y y = true -> SFltb y x = false -> SFltb z y = false -> SFltb z x = false.
Proof.
  destruct x as [sx|sx| |sx mx ex], y as [sy|sy| |sy my ey],
           z as [sz|sz| |sz mz ez]; sf_order.
Qed.

Lemma double_gtb_irrefl (a : float) : gtb a a = false.
Proof. simpl. rewrite FloatAxioms.ltb_spec. apply SFltb_irrefl. Qed.

Lemma double_gtb_trans (a b c : float) :
  gtb a b = true -> gtb b c = true -> gtb a c = true.
Proof.
  simpl. rewrite !FloatAxioms.ltb_spec. intros Hab Hbc.
  exact (SFltb_trans _ _ _ Hbc Hab).
Qed.

Lemma double_gtb_through_number (a b c : float) :
  PrimFloat.eqb b b = true -> gtb a b = false -> gtb b c = false -> gtb a c = false.
Proof.
  simpl. rewrite FloatAxioms.eqb_spec, !FloatAxioms.ltb_spec. apply SFltb_through.
Qed.

(** binary64 keeps the laws; its numbers are the values that equal
    themselves, all but NaN. *)
#[export] Instance double_ScalarOrder : ScalarOrder float := {
  is_number := fun x => PrimFloat.eqb x x;
  gtb_irrefl := double_gtb_irrefl;
  gtb_trans := double_gtb_trans;
  gtb_through_number := double_gtb_through_number
}.

Section NearestPoint.

Context {scalar : Type} {SC : Scalar scalar} {SO : ScalarOrder scalar}.

Implicit Types (getPoint : Z -> Vec3 scalar) (x : Vec3 scalar).



Context {PL : PointLocator scalar}.



End NearestPoint.

(** * The properties on the example data *)

(** Scenario A without explicit points: the query (0.01,0,0) with radius 0.1
    finds point 0 and marks it. *)
Lemma PointsBody_lookup_accepts_near_origin :
  IsA_vtkPointSet FourPointImage = false /\
  PointsAfter (PL := SpecPointLocator) (Locations [[0.01%float; 0%float; 0%float]])
    0.1%float FourPointImage [5; 5; 5; 5] 1 = Ret [1; 0; 0; 0].
Proof.
  split; [reflexivity|].
  assert (H0 : 0 <= FindPoint FourPointImage
                      (GetTuple (Locations [[0.01%float; 0%float; 0%float]])
                                (Z.of_nat 0))) by (vm_compute; discriminate).
  destruct (PointsBody_lookup_rejects_beyond_radius (PL := SpecPointLocator)
              (Locations [[0.01%float; 0%float; 0%float]]) 0.1%float
              FourPointImage [5; 5; 5; 5] [0; 0; 0; 0] 0
              eq_refl eq_refl H0 eq_refl) as (_ & _ & Haccept).
  destruct (Haccept eq_refl) as (_ & _ & Hwrite).
  apply Hwrite. reflexivity.
Defined.

(** Scenario B: the query (5,5,5) with radius 0.1 resolves to no point; the
    call still returns true, with every entry 0; over no points it returns
    false. *)
Lemma ExecutePoints_far_query_returns_true :
  ExecutePoints (PL := SpecPointLocator) (Locations [[5%float; 5%float; 5%float]])
    0.1%float FourPointImage [5; 5; 5; 5] = Ret (true, [0; 0; 0; 0]) /\
  ExecutePoints (PL := SpecPointLocator) (Locations [[5%float; 5%float; 5%float]])
    0.1%float EmptyDataSet [5; 5; 5; 5] = Ret (false, [5; 5; 5; 5]).
Proof.
  split.
  - destruct (ExecutePoints_true_iff_has_points (PL := SpecPointLocator)
                (Locations [[5%float; 5%float; 5%float]]) 0.1%float
                FourPointImage [5; 5; 5; 5]) as (_ & _ & _ & Hnone).
    apply Hnone; [reflexivity|reflexivity|].
    intros [|k] Hk; [reflexivity|].
    exfalso. revert Hk. unfold NumberOfTuples. simpl length. lia.
  - destruct (ExecutePoints_true_iff_has_points (PL := SpecPointLocator)
                (Locations [[5%float; 5%float; 5%float]]) 0.1%float
                EmptyDataSet [5; 5; 5; 5]) as (Hempty & _).
    apply Hempty. discriminate.
Defined.

(** Scenario C: one cell, a query inside it. *)
Lemma CellsBody_marks_the_containing_cell :
  exists m,
    CellsAfter (CL := UnitCellLocator)
      (Locations [[0.5%float; 0.5%float; 0.5%float]; [2%float; 0%float; 0%float]])
      FourPointImage [5] 0 = Ret m /\
    GetNumberOfTuples m = 1 /\
    CellsAfter (CL := UnitCellLocator)
      (Locations [[0.5%float; 0.5%float; 0.5%float]; [2%float; 0%float; 0%float]])
      FourPointImage [5] 1 = Ret (<[0%nat := 1]> m).
Proof.
  exact (CellsBody_writes_in_range_only (CL := UnitCellLocator)
           (Locations [[0.5%float; 0.5%float; 0.5%float]; [2%float; 0%float; 0%float]])
           FourPointImage [5] 0 eq_refl).
Defined.

(** Scenario D: two components per tuple. *)
Lemma Initialize_two_components_disabled :
  Internals (Initialize (CONSTS := SampleConstants) New TwoComponentNode).1 = None.
Proof.
  apply Initialize_invalid_leaves_Internals_unset. left.
  eexists. split; [reflexivity|]. discriminate.
Defined.

Lemma ComputeSelectedElementsForBlock_after_two_components :
  ComputeSelectedElementsForBlock (PL := SpecPointLocator) (CL := UnitCellLocator)
    (BUILD := DebugBuild)
    (Initialize (CONSTS := SampleConstants) New TwoComponentNode).1
    (Some (DataSet FourPointSet)) [7; 7; 7; 7]
  = Ret (false, [7; 7; 7; 7]).
Proof.
  apply ComputeSelectedElementsForBlock_disabled. reflexivity.
Defined.

(** A null input: the assertion stops it, and with [NDEBUG] the call
    returns false. *)
Example ComputeSelectedElementsForBlock_null_input :
  ComputeSelectedElementsForBlock (PL := SpecPointLocator) (CL := UnitCellLocator)
    (BUILD := DebugBuild)
    (Initialize (CONSTS := SampleConstants) New NearOriginNode).1 None [7; 7; 7; 7]
  = AssertFailed /\
  ComputeSelectedElementsForBlock (PL := SpecPointLocator) (CL := UnitCellLocator)
    (BUILD := ReleaseBuild)
    (Initialize (CONSTS := SampleConstants) New NearOriginNode).1 None [7; 7; 7; 7]
  = Ret (false, [7; 7; 7; 7]).
Proof. split; reflexivity. Qed.

(** Two runs of scenario A from different arrays. *)
Lemma ExecutePoints_same_from_any_array :
  ExecutePoints (PL := SpecPointLocator) (Locations [[0.01%float; 0%float; 0%float]])
    0.1%float FourPointSet [5; 5; 5; 5]
  = ExecutePoints (PL := SpecPointLocator) (Locations [[0.01%float; 0%float; 0%float]])
      0.1%float FourPointSet [7; 7; 7; 7].
Proof.
  apply (ExecutePoints_deterministic (PL := SpecPointLocator)
           (Locations [[0.01%float; 0%float; 0%float]]) 0.1%float FourPointSet
           [5; 5; 5; 5] [7; 7; 7; 7]); reflexivity.
Defined.

(** The second of two queries writes one more 1 and keeps the first. *)
Lemma writes_after_fill_second_query :
  PointsAfter (PL := SpecPointLocator)
    (Locations [[0.01%float; 0%float; 0%float]; [1%float; 0%float; 0%float]])
    0.1%float FourPointSet [5; 5; 5; 5] 1 = Ret [1; 0; 0; 0] /\
  PointsAfter (PL := SpecPointLocator)
    (Locations [[0.01%float; 0%float; 0%float]; [1%float; 0%float; 0%float]])
    0.1%float FourPointSet [5; 5; 5; 5] 2 = Ret [1; 1; 0; 0] /\
  writes_one [1; 0; 0; 0] [1; 1; 0; 0].
Proof.
  split; [reflexivity|]. split; [reflexivity|].
  destruct (writes_after_fill_only_set_entries (PL := SpecPointLocator)
              (CL := UnitCellLocator)
              (Locations [[0.01%float; 0%float; 0%float]; [1%float; 0%float; 0%float]])
              0.1%float FourPointSet [5; 5; 5; 5]) as ((_ & _ & Hstep & _) & _).
  apply (Hstep 1%nat); reflexivity.
Defined.



(** * Further properties of the matchers and the selector *)

(** ** Outcomes of a loop of [mark] *)

Section MarkLoopOutcome.

Variable accepted : Z -> bool.
Variable id : Z -> Z.

Lemma mark_loop_no_assert (n : nat) (a : vtkSignedCharArray) :
  for_loop (mark_body accepted id) n a <> AssertFailed.
Proof.
  induction n as [|n IH]; [discriminate|].
  rewrite for_loop_S. destruct (for_loop (mark_body accepted id) n a) as [a'| |];
    simpl; [|discriminate|done].
  unfold mark_body, mark, SetValue.
  destruct (accepted (Z.of_nat n)); [|discriminate].
  destruct (_ && _); discriminate.
Qed.

(** One accepted id outside the array and the loop ends out of bounds. *)
Lemma mark_loop_out_of_bounds (n : nat) (a0 : vtkSignedCharArray) (k : nat) :
  (k < n)%nat -> accepted (Z.of_nat k) = true ->
  ~ (0 <= id (Z.of_nat k) < GetNumberOfTuples a0) ->
  for_loop (mark_body accepted id) n a0 = OutOfBounds.
Proof.
  intros Hk Hacc Hout. induction n as [|n IH]; [lia|].
  rewrite for_loop_S.
  destruct (for_loop (mark_body accepted id) n a0) as [a| |] eqn:Hloop; simpl.
  - destruct (decide (k = n)) as [->|Hne].
    + unfold mark_body, mark. rewrite Hacc. unfold SetValue.
      apply mark_loop_length in Hloop. unfold GetNumberOfTuples in *.
      rewrite Hloop.
      destruct (Z.leb_spec 0 (id (Z.of_nat n))),
               (Z.ltb_spec (id (Z.of_nat n)) (Z.of_nat (length a0)));
        simpl; try reflexivity. lia.
    + assert (Hfalse : @Ret vtkSignedCharArray a = OutOfBounds) by (apply IH; lia).
      discriminate.
  - reflexivity.
  - exfalso. exact (mark_loop_no_assert n a0 Hloop).
Qed.

Lemma mark_loop_decide_safe (n : nat) (a0 : vtkSignedCharArray) :
  (forall k : nat, (k < n)%nat -> accepted (Z.of_nat k) = true ->
     0 <= id (Z.of_nat k) < GetNumberOfTuples a0) \/
  (exists k : nat, (k < n)%nat /\ accepted (Z.of_nat k) = true /\
     ~ (0 <= id (Z.of_nat k) < GetNumberOfTuples a0)).
Proof.
  destruct (bounded_search
              (fun k => accepted (Z.of_nat k) = true /\
                        ~ (0 <= id (Z.of_nat k) < GetNumberOfTuples a0)) n)
    as [(k & Hk & Hacc & Hout)|Hall].
  - intros k. apply _.
  - right. eauto.
  - left. intros k Hk Hacc.
    destruct (decide (0 <= id (Z.of_nat k) < GetNumberOfTuples a0)); [done|].
    exfalso. apply (Hall k Hk). done.
Qed.

(** An entry of a loop that returned: 1 where an iteration marked it, the
    old entry elsewhere. *)
Lemma mark_loop_entry (n : nat) (a0 a : vtkSignedCharArray) (i : nat) :
  for_loop (mark_body accepted id) n a0 = Ret a ->
  ((exists k : nat, (k < n)%nat /\ accepted (Z.of_nat k) = true /\
      id (Z.of_nat k) = Z.of_nat i) /\ a !! i = Some 1) \/
  ((forall k : nat, (k < n)%nat -> accepted (Z.of_nat k) = true ->
      id (Z.of_nat k) <> Z.of_nat i) /\ a !! i = a0 !! i).
Proof.
  intros Hloop.
  destruct (mark_loop_decide_safe n a0) as [Hsafe|(k & Hk & Hacc & Hout)].
  2:{ rewrite (mark_loop_out_of_bounds n a0 k) in Hloop by done. discriminate. }
  destruct (mark_loop_spec accepted id n a0 Hsafe) as (a' & Ha' & _ & Hone & Hrest).
  rewrite Hloop in Ha'. injection Ha' as <-.
  destruct (bounded_search
              (fun k => accepted (Z.of_nat k) = true /\ id (Z.of_nat k) = Z.of_nat i) n)
    as [(k & Hk & Hacc & Hid)|Hnone].
  - intros k. apply _.
  - left. split; [eauto|]. specialize (Hone k Hk Hacc).
    rewrite Hid, Nat2Z.id in Hone. done.
  - right. split.
    + intros k Hk Hacc Hid. apply (Hnone k Hk). done.
    + apply Hrest. intros k Hk Hacc Hid. apply (Hnone k Hk). split; [done|].
      specialize (Hsafe k Hk Hacc). lia.
Qed.

End MarkLoopOutcome.

(** Two loops that mark the same ids end alike. *)
Lemma mark_loop_same_marks (acc1 acc2 : Z -> bool) (id1 id2 : Z -> Z)
  (n1 n2 : nat) (a0 : vtkSignedCharArray) :
  (forall z : Z,
     (exists k : nat, (k < n1)%nat /\ acc1 (Z.of_nat k) = true /\ id1 (Z.of_nat k) = z)
     <->
     (exists k : nat, (k < n2)%nat /\ acc2 (Z.of_nat k) = true /\ id2 (Z.of_nat k) = z)) ->
  for_loop (mark_body acc1 id1) n1 a0 = for_loop (mark_body acc2 id2) n2 a0.
Proof.
  intros Hsame.
  destruct (mark_loop_decide_safe acc1 id1 n1 a0) as [Hsafe1|(k & Hk & Hacc & Hout)].
  - assert (Hsafe2 : forall k : nat, (k < n2)%nat -> acc2 (Z.of_nat k) = true ->
              0 <= id2 (Z.of_nat k) < GetNumberOfTuples a0).
    { intros k Hk Hacc.
      destruct (proj2 (Hsame (id2 (Z.of_nat k)))) as (k1 & Hk1 & Hacc1 & Hid1);
        [eauto|]. rewrite <- Hid1. auto. }
    destruct (mark_loop_spec acc1 id1 n1 a0 Hsafe1) as (a1 & Ha1 & Hl1 & _).
    destruct (mark_loop_spec acc2 id2 n2 a0 Hsafe2) as (a2 & Ha2 & Hl2 & _).
    rewrite Ha1, Ha2. f_equal. apply list_eq. intros i.
    destruct (mark_loop_entry acc1 id1 n1 a0 a1 i Ha1)
      as [[Hex1 ->]|[Hno1 ->]],
       (mark_loop_entry acc2 id2 n2 a0 a2 i Ha2)
      as [[Hex2 ->]|[Hno2 ->]]; try reflexivity; exfalso.
    + apply Hsame in Hex1 as (k & Hk & Hacc & Hid). exact (Hno2 k Hk Hacc Hid).
    + apply Hsame in Hex2 as (k & Hk & Hacc & Hid). exact (Hno1 k Hk Hacc Hid).
  - rewrite (mark_loop_out_of_bounds acc1 id1 n1 a0 k) by done.
    destruct (proj1 (Hsame (id1 (Z.of_nat k)))) as (k2 & Hk2 & Hacc2 & Hid2);
      [eauto|].
    rewrite (mark_loop_out_of_bounds acc2 id2 n2 a0 k2); [done..|].
    rewrite Hid2. done.
Qed.

Section FurtherProperties.

Context {scalar : Type} {SC : Scalar scalar}.
Context {PL : PointLocator scalar} {CL : CellLocator scalar}.
Context {CONSTS : SelectionConstants} {BUILD : Build}.

(** ** Locations by index and by tuple *)

Lemma GetTuple_lookup (sel : vtkDataArray scalar) (k : nat) (t : list scalar) :
  Tuples sel !! k = Some t -> GetTuple sel (Z.of_nat k) = TupleVec3 t.
Proof. intros Ht. unfold GetTuple. rewrite Nat2Z.id, Ht. reflexivity. Qed.

(** A query location at some index of the list is the location of some tuple
    in the list. *)
Lemma locations_by_tuple (sel : vtkDataArray scalar) (P : Vec3 scalar -> Prop) :
  (exists k : nat, (k < Z.to_nat (NumberOfTuples sel))%nat /\
     P (GetTuple sel (Z.of_nat k))) <->
  (exists t, t ∈ Tuples sel /\ P (TupleVec3 t)).
Proof.
  unfold NumberOfTuples. rewrite Nat2Z.id. split.
  - intros (k & Hk & HP). apply lookup_lt_is_Some_2 in Hk as [t Ht].
    exists t. split; [eapply list_elem_of_lookup_2; eauto|].
    rewrite <- (GetTuple_lookup sel k t Ht). done.
  - intros (t & Hin & HP). apply list_elem_of_lookup_1 in Hin as [k Hk].
    exists k. split; [eapply lookup_lt_Some; eauto|].
    rewrite (GetTuple_lookup sel k t Hk). done.
Qed.

Lemma cell_marks_by_tuple (sel : vtkDataArray scalar) (ds : vtkDataSet scalar)
  (numCells z : Z) :
  (exists k : nat, (k < Z.to_nat (NumberOfTuples sel))%nat /\
     cell_accepted sel ds numCells (Z.of_nat k) = true /\
     cell_id sel ds (Z.of_nat k) = z) <->
  (exists t, t ∈ Tuples sel /\
     0 <= FindCell ds (TupleVec3 t) < numCells /\ FindCell ds (TupleVec3 t) = z).
Proof.
  rewrite <- (locations_by_tuple sel
                (fun x => 0 <= FindCell ds x < numCells /\ FindCell ds x = z)).
  unfold cell_accepted, cell_id.
  split; intros (k & Hk & H1 & H2); exists k; (split; [done|]); split; try done.
  - apply andb_true_iff in H1 as [H0 H1].
    apply Z.leb_le in H0. apply Z.ltb_lt in H1. lia.
  - apply andb_true_iff. rewrite Z.leb_le, Z.ltb_lt. lia.
Qed.

Lemma point_marks_by_tuple (sel : vtkDataArray scalar) (r : scalar)
  (ds : vtkDataSet scalar) (z : Z) :
  (exists k : nat, (k < Z.to_nat (NumberOfTuples sel))%nat /\
     point_accepted sel r ds (Z.of_nat k) = true /\
     point_id sel r ds (Z.of_nat k) = z) <->
  (exists t, t ∈ Tuples sel /\
     0 <= PointCandidate r ds (TupleVec3 t) /\ PointCandidate r ds (TupleVec3 t) = z).
Proof.
  rewrite <- (locations_by_tuple sel
                (fun x => 0 <= PointCandidate r ds x /\ PointCandidate r ds x = z)).
  unfold point_accepted, point_id.
  split; intros (k & Hk & H1 & H2); exists k; (split; [done|]); split; try done.
  - apply Z.leb_le. done.
  - apply Z.leb_le. done.
Qed.

(** The array the cell matcher leaves, by tuple. *)
Lemma ExecuteCells_by_tuple (sel : vtkDataArray scalar) (r : scalar)
  (ds : vtkDataSet scalar) (mask : vtkSignedCharArray) :
  exists m,
    ExecuteCells sel r ds mask = Ret (true, m) /\ length m = length mask /\
    (forall i : nat, m !! i = Some 1 <->
       (i < length mask)%nat /\
       exists t, t ∈ Tuples sel /\ FindCell ds (TupleVec3 t) = Z.of_nat i) /\
    (forall i : nat, (i < length mask)%nat -> m !! i = Some 0 \/ m !! i = Some 1).
Proof.
  rewrite ExecuteCells_CellsAfter.
  destruct (CellsAfter_returns sel ds mask (Z.to_nat (NumberOfTuples sel)))
    as (m & Hm & Hlen).
  rewrite Hm. exists m. split; [reflexivity|]. split; [done|].
  unfold CellsAfter in Hm. rewrite (fill_n_exact mask _ 0) in Hm by reflexivity.
  simpl in Hm. rewrite CellsLoop_mark in Hm.
  assert (Hentry := fun i => mark_loop_entry _ _ _ _ _ i Hm).
  split.
  - intros i. destruct (Hentry i) as [[Hex Hi]|[Hno Hi]].
    + apply cell_marks_by_tuple in Hex as (t & Ht & Hr & Hid).
      rewrite Hi. unfold GetNumberOfTuples in Hr. split; [|done].
      intros _. split; [lia|eauto].
    + rewrite Hi. split.
      * intros H1. apply lookup_replicate in H1 as [H1 _]. discriminate.
      * intros (Hlt & t & Ht & Hid). exfalso.
        destruct (proj2 (cell_marks_by_tuple sel ds (GetNumberOfTuples mask)
                           (Z.of_nat i))) as (k & Hk & Hacc & Hk2).
        { exists t. unfold GetNumberOfTuples. split; [done|]. split; [lia|done]. }
        exact (Hno k Hk Hacc Hk2).
  - intros i Hlt. destruct (Hentry i) as [[_ Hi]|[_ Hi]]; [auto|].
    left. rewrite Hi. apply lookup_replicate_2. done.
Qed.

(** The array the cell matcher leaves, by index of the query location. *)
Lemma ExecuteCells_entries (sel : vtkDataArray scalar) (r : scalar)
  (ds : vtkDataSet scalar) (mask : vtkSignedCharArray) :
  exists m,
    ExecuteCells sel r ds mask = Ret (true, m) /\ length m = length mask /\
    forall i : nat, (i < length mask)%nat ->
      (m !! i = Some 1 /\
       exists k, 0 <= k < NumberOfTuples sel /\
         FindCell ds (GetTuple sel k) = Z.of_nat i) \/
      (m !! i = Some 0 /\
       forall k, 0 <= k < NumberOfTuples sel ->
         FindCell ds (GetTuple sel k) <> Z.of_nat i).
Proof.
  destruct (ExecuteCells_by_tuple sel r ds mask) as (m & Hm & Hlen & Hone & Hbit).
  exists m. split; [done|]. split; [done|]. intros i Hi.
  destruct (Hbit i Hi) as [H0|H1].
  - right. split; [done|]. intros k Hk Hfind.
    assert (H1 : m !! i = Some 1); [|congruence].
    apply Hone. split; [done|].
    apply (locations_by_tuple sel (fun x => FindCell ds x = Z.of_nat i)).
    exists (Z.to_nat k). split; [lia|]. rewrite Z2Nat.id by lia. done.
  - left. split; [done|]. apply Hone in H1 as [_ Hex].
    apply (locations_by_tuple sel (fun x => FindCell ds x = Z.of_nat i)) in Hex
      as (k & Hk & Hfind).
    exists (Z.of_nat k). split; [lia|done].
Qed.

(** ** The cell matcher *)

(** C8: [Execute] of the cell matcher returns true on every dataset and
    every array, the empty one (a dataset of zero cells) included, and never
    without doing its work: what it returns is the array after the fill and
    the query of every location, of the same length, with 1 at exactly the
    cells [FindCell] answers for some location and 0 at all others. It has
    no path that returns false and none that leaves the array's bounds. *)
Theorem ExecuteCells_returns_true :
  forall (sel : vtkDataArray scalar) (r : scalar) (ds : vtkDataSet scalar)
         (mask : vtkSignedCharArray),
    (exists m,
       ExecuteCells sel r ds mask = Ret (true, m) /\
       length m = length mask /\
       CellsAfter sel ds mask (Z.to_nat (NumberOfTuples sel)) = Ret m /\
       forall i : nat, (i < length mask)%nat ->
         (m !! i = Some 1 /\
          exists k, 0 <= k < NumberOfTuples sel /\
            FindCell ds (GetTuple sel k) = Z.of_nat i) \/
         (m !! i = Some 0 /\
          forall k, 0 <= k < NumberOfTuples sel ->
            FindCell ds (GetTuple sel k) <> Z.of_nat i)) /\
    ExecuteCells sel r ds [] = Ret (true, []).
Proof.
  intros sel r ds mask. split.
  - destruct (ExecuteCells_entries sel r ds mask) as (m & Hm & Hlen & Hentries).
    exists m. split; [done|]. split; [done|]. split; [|done].
    rewrite ExecuteCells_CellsAfter in Hm.
    destruct (CellsAfter sel ds mask _) as [m'| |]; simpl in Hm; congruence.
  - destruct (ExecuteCells_entries sel r ds []) as (m & Hm & Hlen & _).
    rewrite Hm. destruct m; [reflexivity|discriminate].
Qed.

(** X1: the cell matcher returns true with an array of the same length in
    which every entry is 0 or 1: 1 exactly at the cells that [FindCell]
    answers for some query location, 0 at all others. *)
Theorem ExecuteCells_marks_exactly_the_found_cells :
  forall (sel : vtkDataArray scalar) (r : scalar) (ds : vtkDataSet scalar)
         (mask : vtkSignedCharArray),
    exists m,
      ExecuteCells sel r ds mask = Ret (true, m) /\ length m = length mask /\
      forall i : nat, (i < length mask)%nat ->
        (m !! i = Some 1 /\
         exists k, 0 <= k < NumberOfTuples sel /\
           FindCell ds (GetTuple sel k) = Z.of_nat i) \/
        (m !! i = Some 0 /\
         forall k, 0 <= k < NumberOfTuples sel ->
           FindCell ds (GetTuple sel k) <> Z.of_nat i).
Proof.
  intros sel r ds mask.
  destruct (ExecuteCells_by_tuple sel r ds mask) as (m & Hm & Hlen & Hone & Hbit).
  exists m. split; [done|]. split; [done|]. intros i Hi.
  destruct (Hbit i Hi) as [H0|H1].
  - right. split; [done|]. intros k Hk Hfind.
    assert (H1 : m !! i = Some 1); [|congruence].
    apply Hone. split; [done|].
    apply (locations_by_tuple sel (fun x => FindCell ds x = Z.of_nat i)).
    exists (Z.to_nat k). split; [lia|]. rewrite Z2Nat.id by lia. done.
  - left. split; [done|]. apply Hone in H1 as [_ Hex].
    apply (locations_by_tuple sel (fun x => FindCell ds x = Z.of_nat i)) in Hex
      as (k & Hk & Hfind).
    exists (Z.of_nat k). split; [lia|done].
Qed.

(** X2: the cells selected by two lists of locations taken together are the
    cells selected by either list: an entry is 1 after the call on the
    concatenation exactly when it is 1 after the call on one of the parts. *)
Theorem ExecuteCells_concatenation_is_union :
  forall (c : Z) (l1 l2 : list (list scalar)) (r : scalar)
         (ds : vtkDataSet scalar) (mask : vtkSignedCharArray),
    exists m1 m2 m,
      ExecuteCells {| GetNumberOfComponents := c; Tuples := l1 |} r ds mask
      = Ret (true, m1) /\
      ExecuteCells {| GetNumberOfComponents := c; Tuples := l2 |} r ds mask
      = Ret (true, m2) /\
      ExecuteCells {| GetNumberOfComponents := c; Tuples := l1 ++ l2 |} r ds mask
      = Ret (true, m) /\
      forall i : nat, m !! i = Some 1 <-> m1 !! i = Some 1 \/ m2 !! i = Some 1.
Proof.
  intros c l1 l2 r ds mask.
  destruct (ExecuteCells_by_tuple {| GetNumberOfComponents := c; Tuples := l1 |}
              r ds mask) as (m1 & Hm1 & _ & Hone1 & _).
  destruct (ExecuteCells_by_tuple {| GetNumberOfComponents := c; Tuples := l2 |}
              r ds mask) as (m2 & Hm2 & _ & Hone2 & _).
  destruct (ExecuteCells_by_tuple {| GetNumberOfComponents := c; Tuples := l1 ++ l2 |}
              r ds mask) as (m & Hm & _ & Hone & _).
  exists m1, m2, m. split; [done|]. split; [done|]. split; [done|].
  intros i. rewrite Hone, Hone1, Hone2. simpl. split.
  - intros (Hi & t & Ht & Hfind). apply elem_of_app in Ht as [Ht|Ht]; eauto 6.
  - intros [(Hi & t & Ht & Hfind)|(Hi & t & Ht & Hfind)];
      (split; [done|]); exists t; (split; [|done]); apply elem_of_app; auto.
Qed.

(** X3: the result of the cell matcher depends on the list of locations only
    through the set of its tuples, and neither on the search radius nor on
    what the array held: lists with the same tuples, in any order and with
    any repetitions, give the same result over arrays of one length. *)
Theorem ExecuteCells_same_locations :
  forall (sel sel' : vtkDataArray scalar) (r r' : scalar) (ds : vtkDataSet scalar)
         (mask mask' : vtkSignedCharArray),
    (forall t, t ∈ Tuples sel <-> t ∈ Tuples sel') ->
    length mask = length mask' ->
    ExecuteCells sel r ds mask = ExecuteCells sel' r' ds mask'.
Proof.
  intros sel sel' r r' ds mask mask' Hsame Hlen.
  unfold ExecuteCells. rewrite !(fill_n_exact _ _ 0) by reflexivity. simpl.
  rewrite !CellsLoop_mark. unfold GetNumberOfTuples. rewrite Hlen.
  rewrite (mark_loop_same_marks _ (cell_accepted sel' ds (Z.of_nat (length mask')))
             _ (cell_id sel' ds) _ (Z.to_nat (NumberOfTuples sel'))); [reflexivity|].
  intros z. rewrite !cell_marks_by_tuple.
  split; intros (t & Ht & H); exists t; (split; [apply Hsame; done|done]).
Qed.

(** ** The point matcher *)

(** X4: the result of the point matcher, a failed run included, depends on
    the list of locations only through the set of its tuples: order and
    repetitions of the locations do not matter. *)
Theorem ExecutePoints_same_locations :
  forall (sel sel' : vtkDataArray scalar) (r : scalar) (ds : vtkDataSet scalar)
         (mask : vtkSignedCharArray),
    (forall t, t ∈ Tuples sel <-> t ∈ Tuples sel') ->
    ExecutePoints sel r ds mask = ExecutePoints sel' r ds mask.
Proof.
  intros sel sel' r ds mask Hsame. unfold ExecutePoints.
  destruct (GetNumberOfPoints ds <=? 0); [reflexivity|].
  destruct (fill_n mask (GetNumberOfPoints ds) 0) as [f| |]; simpl; try reflexivity.
  rewrite !PointsLoop_mark.
  rewrite (mark_loop_same_marks _ (point_accepted sel' r ds)
             _ (point_id sel' r ds) _ (Z.to_nat (NumberOfTuples sel'))); [reflexivity|].
  intros z. rewrite !point_marks_by_tuple.
  split; intros (t & Ht & H); exists t; (split; [apply Hsame; done|done]).
Qed.

(** X5: over a dataset with points, an array of one entry per point and
    queries that resolve to point ids or to none, the point matcher returns
    true with an array of the same length in which every entry is 0 or 1: 1
    exactly at the ids some query location resolves to. *)
Theorem ExecutePoints_marks_exactly_the_resolved_points :
  forall (sel : vtkDataArray scalar) (r : scalar) (ds : vtkDataSet scalar)
         (mask : vtkSignedCharArray),
    0 < GetNumberOfPoints ds ->
    GetNumberOfTuples mask = GetNumberOfPoints ds ->
    (forall k, 0 <= k < NumberOfTuples sel ->
       PointCandidate r ds (GetTuple sel k) < GetNumberOfPoints ds) ->
    exists m,
      ExecutePoints sel r ds mask = Ret (true, m) /\ length m = length mask /\
      forall i : nat, (i < length mask)%nat ->
        (m !! i = Some 1 /\
         exists k, 0 <= k < NumberOfTuples sel /\
           PointCandidate r ds (GetTuple sel k) = Z.of_nat i) \/
        (m !! i = Some 0 /\
         forall k, 0 <= k < NumberOfTuples sel ->
           PointCandidate r ds (GetTuple sel k) <> Z.of_nat i).
Proof.
  intros sel r ds mask Hn Hlen Hrange.
  rewrite ExecutePoints_PointsAfter by done.
  destruct (PointsAfter_spec sel r ds mask (Z.to_nat (NumberOfTuples sel)))
    as (m & Hm & Hl & _); [done|intros k Hk; apply Hrange; lia|].
  rewrite Hm. exists m. split; [reflexivity|]. split; [done|]. intros i Hi.
  unfold PointsAfter in Hm. rewrite (fill_n_exact mask _ 0) in Hm by done.
  simpl in Hm. rewrite PointsLoop_mark in Hm.
  destruct (mark_loop_entry _ _ _ _ _ i Hm) as [[(k & Hk & Hacc & Hid) Hmi]|[Hno Hmi]].
  - left. split; [done|]. exists (Z.of_nat k). split; [lia|done].
  - right. split; [rewrite Hmi; apply lookup_replicate_2; done|].
    intros k Hk Hid. apply (Hno (Z.to_nat k)); [lia| |].
    + unfold point_accepted. rewrite Z2Nat.id by lia. apply Z.leb_le. lia.
    + unfold point_id. rewrite Z2Nat.id by lia. done.
Qed.

(** X6: the point matcher never fails an assertion, and over a dataset with
    points it writes outside the array exactly when the array has fewer
    entries than the dataset has points or some query location resolves to
    an id at or past the end of the array; nothing in the matcher checks
    either. *)
Theorem ExecutePoints_out_of_bounds_iff :
  forall (sel : vtkDataArray scalar) (r : scalar) (ds : vtkDataSet scalar)
         (mask : vtkSignedCharArray),
    0 < GetNumberOfPoints ds ->
    ExecutePoints sel r ds mask <> AssertFailed /\
    (ExecutePoints sel r ds mask = OutOfBounds <->
     GetNumberOfTuples mask < GetNumberOfPoints ds \/
     exists k, 0 <= k < NumberOfTuples sel /\
       GetNumberOfTuples mask <= PointCandidate r ds (GetTuple sel k)).
Proof.
  intros sel r ds mask Hn. rewrite ExecutePoints_PointsAfter by done.
  unfold PointsAfter, fill_n.
  destruct (Z.leb_spec (GetNumberOfPoints ds) (GetNumberOfTuples mask)) as [Hfit|Hfit];
    simpl.
  2:{ split; [discriminate|]. split; [auto|reflexivity]. }
  set (f := replicate (Z.to_nat (GetNumberOfPoints ds)) 0
            ++ drop (Z.to_nat (GetNumberOfPoints ds)) mask).
  assert (Hf : GetNumberOfTuples f = GetNumberOfTuples mask).
  { unfold GetNumberOfTuples in *. subst f.
    rewrite length_app, length_replicate, length_drop. lia. }
  rewrite PointsLoop_mark.
  destruct (mark_loop_decide_safe (point_accepted sel r ds) (point_id sel r ds)
              (Z.to_nat (NumberOfTuples sel)) f) as [Hsafe|(k & Hk & Hacc & Hout)].
  - destruct (mark_loop_spec _ _ _ _ Hsafe) as (m & -> & _). simpl.
    split; [discriminate|]. split; [discriminate|].
    intros [Hshort|(k & Hk & Hpast)]; [lia|]. exfalso.
    specialize (Hsafe (Z.to_nat k)). rewrite Z2Nat.id in Hsafe by lia.
    unfold point_accepted, point_id in Hsafe.
    assert (0 <= PointCandidate r ds (GetTuple sel k) < GetNumberOfTuples f).
    { apply Hsafe; [lia|]. apply Z.leb_le.
      unfold GetNumberOfTuples in Hpast. lia. }
    lia.
  - rewrite (mark_loop_out_of_bounds _ _ _ _ k) by done. simpl.
    split; [discriminate|]. split; [|reflexivity]. intros _. right.
    exists (Z.of_nat k). split; [lia|].
    unfold point_accepted, point_id in *. apply Z.leb_le in Hacc. lia.
Qed.

(** X7: over a dataset without explicit points the matcher reads the radius
    only through its square: two radii with the same square, such as a
    radius and its negation, give the same result. *)
Theorem ExecutePoints_lookup_reads_squared_radius :
  forall (sel : vtkDataArray scalar) (r r' : scalar) (ds : vtkDataSet scalar)
         (mask : vtkSignedCharArray),
    IsA_vtkPointSet ds = false ->
    mul r r = mul r' r' ->
    ExecutePoints sel r ds mask = ExecutePoints sel r' ds mask.
Proof.
  intros sel r r' ds mask Hlookup Hsq. unfold ExecutePoints.
  destruct (GetNumberOfPoints ds <=? 0); [reflexivity|].
  destruct (fill_n mask (GetNumberOfPoints ds) 0) as [f| |]; simpl; try reflexivity.
  unfold PointsLoop.
  rewrite (for_loop_ext (PointsBody sel r ds) (PointsBody sel r' ds)); [reflexivity|].
  intros k x. unfold PointsBody, PointCandidate. rewrite Hlookup, Hsq. reflexivity.
Qed.

(** X12: the point matcher clears as many entries as the dataset has
    points, not as many as the array has: in a call that returned true, an
    entry at or past the number of points that no query location resolves
    to is still what the caller put there. *)
Theorem ExecutePoints_clears_only_the_points :
  forall (sel : vtkDataArray scalar) (r : scalar) (ds : vtkDataSet scalar)
         (mask m : vtkSignedCharArray) (i : nat),
    ExecutePoints sel r ds mask = Ret (true, m) ->
    (Z.to_nat (GetNumberOfPoints ds) <= i)%nat ->
    (forall k, 0 <= k < NumberOfTuples sel ->
       PointCandidate r ds (GetTuple sel k) <> Z.of_nat i) ->
    m !! i = mask !! i.
Proof.
  intros sel r ds mask m i Hrun Hi Hnone. unfold ExecutePoints in Hrun.
  destruct (GetNumberOfPoints ds <=? 0); [discriminate|].
  apply bind_Ret in Hrun as (f & Hf & Hrun).
  apply bind_Ret in Hrun as (m' & Hloop & Hret). injection Hret as <-.
  rewrite PointsLoop_mark in Hloop.
  destruct (mark_loop_entry _ _ _ _ _ i Hloop)
    as [[(k & Hk & Hacc & Hid) _]|[_ ->]].
  - exfalso. apply (Hnone (Z.of_nat k)); [lia|done].
  - unfold fill_n in Hf. destruct (_ <=? GetNumberOfTuples mask); [|discriminate].
    injection Hf as <-.
    rewrite lookup_app_r by (rewrite length_replicate; lia).
    rewrite length_replicate, lookup_drop. f_equal. lia.
Qed.

(** ** The selector *)

(** X8: [Initialize] constructs a matcher exactly when the selection list is
    a data array with at least one tuple and three components, the content
    type is [LOCATIONS] and the field type converts to the point or the cell
    association; the matcher is then the point or the cell matcher over that
    list, with the node's [EPSILON] as radius, or zero when the node has
    none. What the selector held before plays no part. *)
Theorem Initialize_constructs_matcher_iff :
  forall (self : vtkLocationSelector scalar) (node : vtkSelectionNode scalar)
         (internals : vtkInternals scalar),
    Internals (Initialize self node).1 = Some internals <->
    exists a,
      DataArray_SafeDownCast (GetSelectionList node) = Some a /\
      NumberOfTuples a <> 0 /\
      GetNumberOfComponents a = 3 /\
      GetContentType node = LOCATIONS /\
      ((ConvertSelectionFieldToAttributeType (GetFieldType node)
          = FIELD_ASSOCIATION_POINTS /\
        internals = vtkInternalsForPoints a (default zero (EPSILON node))) \/
       (ConvertSelectionFieldToAttributeType (GetFieldType node)
          <> FIELD_ASSOCIATION_POINTS /\
        ConvertSelectionFieldToAttributeType (GetFieldType node)
          = FIELD_ASSOCIATION_CELLS /\
        internals = vtkInternalsForCells a (default zero (EPSILON node)))).
Proof.
  intros self node internals. unfold Initialize.
  destruct (DataArray_SafeDownCast (GetSelectionList node)) as [a|] eqn:Hlist.
  2:{ split; [discriminate|]. intros (a & Ha & _). discriminate. }
  destruct (Z.eqb_spec (NumberOfTuples a) 0) as [Hn|Hn].
  { split; [discriminate|]. intros (a' & Ha' & Hn' & _). congruence. }
  destruct (Z.eqb_spec (GetNumberOfComponents a) 3) as [H3|H3]; simpl.
  2:{ split; [discriminate|]. intros (a' & Ha' & _ & H3' & _). congruence. }
  destruct (Z.eqb_spec (GetContentType node) LOCATIONS) as [Hc|Hc]; simpl.
  2:{ split; [discriminate|]. intros (a' & _ & _ & _ & Hc' & _). done. }
  destruct (Z.eqb_spec (ConvertSelectionFieldToAttributeType (GetFieldType node))
              FIELD_ASSOCIATION_POINTS) as [Hp|Hp]; simpl.
  - split.
    + intros H. injection H as <-. exists a. repeat (split; [done|]). left. done.
    + intros (a' & Ha' & _ & _ & _ & [[_ ->]|[Hp' _]]); [|done].
      injection Ha' as <-. reflexivity.
  - destruct (Z.eqb_spec (ConvertSelectionFieldToAttributeType (GetFieldType node))
                FIELD_ASSOCIATION_CELLS) as [Hq|Hq]; simpl.
    + split.
      * intros H. injection H as <-. exists a. repeat (split; [done|]). right. done.
      * intros (a' & Ha' & _ & _ & _ & [[Hp' _]|(_ & _ & ->)]); [done|].
        injection Ha' as <-. reflexivity.
    + split; [discriminate|].
      intros (a' & _ & _ & _ & _ & [[Hp' _]|(_ & Hq' & _)]); done.
Qed.

(** X9: [Initialize] reports at most one error, and none exactly when it
    constructed a matcher or the selection list is absent, not a data array,
    or empty; an empty selection is refused in silence. A list of tuples
    that do not have three components is reported as such whatever the
    content type and the field type are. *)
Theorem Initialize_reports_at_most_one_error :
  forall (self : vtkLocationSelector scalar) (node : vtkSelectionNode scalar),
    (length (Initialize self node).2 <= 1)%nat /\
    ((Initialize self node).2 = [] <->
     is_Some (Internals (Initialize self node).1) \/
     DataArray_SafeDownCast (GetSelectionList node) = None \/
     exists a, DataArray_SafeDownCast (GetSelectionList node) = Some a /\
               NumberOfTuples a = 0) /\
    (forall a, DataArray_SafeDownCast (GetSelectionList node) = Some a ->
       NumberOfTuples a <> 0 -> GetNumberOfComponents a <> 3 ->
       (Initialize self node).2 = [Only3dLocations]).
Proof.
  intros self node. unfold Initialize.
  destruct (DataArray_SafeDownCast (GetSelectionList node)) as [a|] eqn:Hlist.
  2:{ simpl. split; [lia|]. split; [split; auto|]. intros a Ha. discriminate. }
  destruct (Z.eqb_spec (NumberOfTuples a) 0) as [Hn|Hn].
  { simpl. split; [lia|]. split; [split; eauto|].
    intros a' Ha'. injection Ha' as <-. done. }
  assert (Hnot : forall (errs : list Diagnostic),
    errs <> [] ->
    (errs = [] <->
     is_Some (@None (vtkInternals scalar)) \/ Some a = None \/
     exists a', Some a = Some a' /\ NumberOfTuples a' = 0)).
  { intros errs Hne. split; [done|].
    intros [[x Hx]|[Hx|(a' & Ha' & Hz)]]; try discriminate.
    injection Ha' as <-. done. }
  destruct (Z.eqb_spec (GetNumberOfComponents a) 3) as [H3|H3]; simpl.
  2:{ split; [lia|]. split; [apply Hnot; discriminate|]. done. }
  destruct (Z.eqb_spec (GetContentType node) LOCATIONS) as [Hc|Hc]; simpl.
  2:{ split; [lia|]. split; [apply Hnot; discriminate|].
      intros a' Ha'. injection Ha' as <-. done. }
  destruct (Z.eqb_spec (ConvertSelectionFieldToAttributeType (GetFieldType node))
              FIELD_ASSOCIATION_POINTS) as [Hp|Hp]; simpl.
  { split; [lia|]. split; [split; eauto|].
    intros a' Ha'. injection Ha' as <-. done. }
  destruct (Z.eqb_spec (ConvertSelectionFieldToAttributeType (GetFieldType node))
              FIELD_ASSOCIATION_CELLS) as [Hq|Hq]; simpl.
  { split; [lia|]. split; [split; eauto|].
    intros a' Ha'. injection Ha' as <-. done. }
  split; [lia|]. split; [apply Hnot; discriminate|].
  intros a' Ha'. injection Ha' as <-. done.
Qed.

(** X11: one bracket of the selector. After [Initialize] on a node that
    passes every check, [ComputeSelectedElementsForBlock] on a dataset is
    [Execute] of the point matcher (point association) or of the cell
    matcher (cell association) over the node's list with the node's radius;
    after [Finalize] the same call returns false and hands the array back. *)
Theorem Initialize_Compute_Finalize :
  forall (self : vtkLocationSelector scalar) (node : vtkSelectionNode scalar)
         (a : vtkDataArray scalar) (ds : vtkDataSet scalar)
         (mask : vtkSignedCharArray),
    DataArray_SafeDownCast (GetSelectionList node) = Some a ->
    NumberOfTuples a <> 0 ->
    GetNumberOfComponents a = 3 ->
    GetContentType node = LOCATIONS ->
    (ConvertSelectionFieldToAttributeType (GetFieldType node)
       = FIELD_ASSOCIATION_POINTS ->
     ComputeSelectedElementsForBlock (Initialize self node).1
       (Some (DataSet ds)) mask
     = ExecutePoints a (default zero (EPSILON node)) ds mask) /\
    (ConvertSelectionFieldToAttributeType (GetFieldType node)
       <> FIELD_ASSOCIATION_POINTS ->
     ConvertSelectionFieldToAttributeType (GetFieldType node)
       = FIELD_ASSOCIATION_CELLS ->
     ComputeSelectedElementsForBlock (Initialize self node).1
       (Some (DataSet ds)) mask
     = ExecuteCells a (default zero (EPSILON node)) ds mask) /\
    ComputeSelectedElementsForBlock (Finalize (Initialize self node).1)
      (Some (DataSet ds)) mask
    = Ret (false, mask).
Proof.
  intros self node a ds mask Hlist Hn H3 Hc.
  unfold Initialize. rewrite Hlist.
  destruct (Z.eqb_spec (NumberOfTuples a) 0); [done|].
  destruct (Z.eqb_spec (GetNumberOfComponents a) 3); [simpl|done].
  destruct (Z.eqb_spec (GetContentType node) LOCATIONS); [simpl|done].
  split; [|split; [|reflexivity]].
  - intros Hp. rewrite Hp, Z.eqb_refl. reflexivity.
  - intros Hp Hq.
    destruct (Z.eqb_spec (ConvertSelectionFieldToAttributeType (GetFieldType node))
                FIELD_ASSOCIATION_POINTS); [done|].
    rewrite Hq, Z.eqb_refl. reflexivity.
Qed.

End FurtherProperties.

(** * The further properties on the example data *)

(** The same two locations, reordered and repeated, over arrays with
    different contents and with different radii. *)
Lemma ExecuteCells_reordered_locations :
  ExecuteCells (CL := UnitCellLocator)
    (Locations [[0.5%float; 0.5%float; 0.5%float]; [2%float; 0%float; 0%float]])
    0%float FourPointImage [5]
  = ExecuteCells (CL := UnitCellLocator)
      (Locations [[2%float; 0%float; 0%float]; [0.5%float; 0.5%float; 0.5%float];
                  [2%float; 0%float; 0%float]])
      1%float FourPointImage [7].
Proof.
  apply ExecuteCells_same_locations; [|reflexivity].
  intros t. simpl. rewrite !elem_of_cons, !elem_of_nil. tauto.
Defined.

Lemma ExecutePoints_reordered_locations :
  ExecutePoints (PL := SpecPointLocator)
    (Locations [[0.01%float; 0%float; 0%float]; [1%float; 0%float; 0%float]])
    0.1%float FourPointSet [5; 5; 5; 5]
  = ExecutePoints (PL := SpecPointLocator)
      (Locations [[1%float; 0%float; 0%float]; [0.01%float; 0%float; 0%float]])
      0.1%float FourPointSet [5; 5; 5; 5].
Proof.
  apply ExecutePoints_same_locations. intros t. simpl.
  rewrite !elem_of_cons, !elem_of_nil. tauto.
Defined.

(** Scenario A: the call returns an array of four entries, each 0 or 1. *)
Lemma ExecutePoints_near_origin_entries :
  exists m,
    ExecutePoints (PL := SpecPointLocator)
      (Locations [[0.01%float; 0%float; 0%float]]) 0.1%float FourPointSet
      [5; 5; 5; 5] = Ret (true, m) /\ length m = 4%nat.
Proof.
  destruct (ExecutePoints_marks_exactly_the_resolved_points (PL := SpecPointLocator)
              (Locations [[0.01%float; 0%float; 0%float]]) 0.1%float FourPointSet
              [5; 5; 5; 5] eq_refl eq_refl) as (m & Hm & Hlen & _).
  - intros k Hk. replace k with 0 by (change (0 <= k < 1) in Hk; lia).
    reflexivity.
  - exists m. split; [exact Hm|exact Hlen].
Defined.

(** An array of two entries over four points. *)
Lemma ExecutePoints_short_array :
  ExecutePoints (PL := SpecPointLocator)
    (Locations [[0.01%float; 0%float; 0%float]]) 0.1%float FourPointSet [5; 5]
  = OutOfBounds.
Proof.
  apply (ExecutePoints_out_of_bounds_iff (PL := SpecPointLocator)
           (Locations [[0.01%float; 0%float; 0%float]]) 0.1%float FourPointSet
           [5; 5] eq_refl).
  left. reflexivity.
Defined.

(** The radii 0.5 and -0.5 over the dataset without explicit points. *)
Lemma ExecutePoints_negated_radius :
  ExecutePoints (PL := SpecPointLocator)
    (Locations [[0.25%float; 0%float; 0%float]]) 0.5%float FourPointImage
    [5; 5; 5; 5]
  = ExecutePoints (PL := SpecPointLocator)
      (Locations [[0.25%float; 0%float; 0%float]]) (-0.5)%float FourPointImage
      [5; 5; 5; 5].
Proof.
  apply ExecutePoints_lookup_reads_squared_radius; reflexivity.
Defined.

(** A fifth entry past the four points keeps the caller's 9. *)
Lemma ExecutePoints_fifth_entry_kept :
  ExecutePoints (PL := SpecPointLocator)
    (Locations [[0.01%float; 0%float; 0%float]]) 0.1%float FourPointSet
    [5; 5; 5; 5; 9] = Ret (true, [1; 0; 0; 0; 9]) /\
  [1; 0; 0; 0; 9] !! 4%nat = Some 9.
Proof.
  assert (Hrun : ExecutePoints (PL := SpecPointLocator)
                   (Locations [[0.01%float; 0%float; 0%float]]) 0.1%float
                   FourPointSet [5; 5; 5; 5; 9] = Ret (true, [1; 0; 0; 0; 9]))
    by reflexivity.
  split; [exact Hrun|].
  apply (ExecutePoints_clears_only_the_points (PL := SpecPointLocator)
           (Locations [[0.01%float; 0%float; 0%float]]) 0.1%float FourPointSet
           [5; 5; 5; 5; 9] [1; 0; 0; 0; 9] 4 Hrun).
  - simpl. lia.
  - intros k Hk. replace k with 0 by (change (0 <= k < 1) in Hk; lia).
    discriminate.
Defined.

(** Scenario D reports the one error and nothing else. *)
Lemma Initialize_two_components_report :
  (Initialize (CONSTS := SampleConstants) New TwoComponentNode).2 = [Only3dLocations].
Proof.
  destruct (Initialize_reports_at_most_one_error (CONSTS := SampleConstants)
              New TwoComponentNode) as (_ & _ & Hdim).
  apply (Hdim _ eq_refl); discriminate.
Defined.

(** Scenario A through the selector, and after teardown. *)
Lemma Initialize_Compute_Finalize_near_origin :
  ComputeSelectedElementsForBlock (PL := SpecPointLocator) (CL := UnitCellLocator)
    (BUILD := DebugBuild)
    (Initialize (CONSTS := SampleConstants) New NearOriginNode).1
    (Some (DataSet FourPointSet)) [7; 7; 7; 7]
  = Ret (true, [1; 0; 0; 0]) /\
  ComputeSelectedElementsForBlock (PL := SpecPointLocator) (CL := UnitCellLocator)
    (BUILD := DebugBuild)
    (Finalize (Initialize (CONSTS := SampleConstants) New NearOriginNode).1)
    (Some (DataSet FourPointSet)) [7; 7; 7; 7]
  = Ret (false, [7; 7; 7; 7]).
Proof.
  destruct (Initialize_Compute_Finalize (PL := SpecPointLocator)
              (CL := UnitCellLocator) (CONSTS := SampleConstants)
              (BUILD := DebugBuild) New NearOriginNode (Locations [[0.01%float; 0%float; 0%float]])
              FourPointSet [7; 7; 7; 7] eq_refl)
    as (Hpoints & _ & Hfinal); [discriminate|reflexivity|reflexivity|].
  split; [|exact Hfinal]. rewrite Hpoints by reflexivity. reflexivity.
Defined.
